(** * GroupListItem: the tree-node factory of the group list

    A shallow embedding of [vue-client/src/pages/groupList/GroupListItem.js].
    The JavaScript heap is explicit: objects and arrays live in a store
    indexed by locations, the builders thread the store, and the accessor
    closures that a node carries read the store when they are called. *)

From stdpp Require Import base gmap strings list fin_maps.
From Stdlib Require Import ZArith.

Set Default Proof Using "Type".

Open Scope string_scope.
Open Scope list_scope.

(** ** JavaScript values *)

Definition loc := positive.

(** Numbers are the integer-valued ones (counts, weights).  A function value
    is the closure it denotes: the code never compares functions and never
    stores properties on them. *)
Inductive value : Type :=
| VUndefined
| VNull
| VBool (b : bool)
| VNum (n : Z)
| VStr (s : string)
| VRef (l : loc)
| VFun (f : closure)
with closure : Type :=
(* [function getActiveConnections() { return null; }] of the constructor *)
| FDefaultActiveConnections
(* the default [getClientIdentifier] of the constructor *)
| FDefaultClientIdentifier
(* [getActiveConnections] of [fromConnection], with its captured
   [countActiveConnections], [dataSource] and [connection] *)
| FConnectionActiveConnections (countActiveConnections dataSource connection : value)
(* [getActiveConnections] of [fromConnectionGroup], with its captured
   [countActiveConnectionGroups], [dataSource] and [connectionGroup] *)
| FGroupActiveConnections (countActiveConnectionGroups dataSource connectionGroup : value)
(* a function supplied by the caller *)
| FExtern (name : string) (id : nat).

Inductive obj : Type :=
| OObject (fields : gmap string value)
| OArray (elems : list value).

Record state : Type := State {
  heap : gmap loc obj;
  console : list (list value)
}.

(** ** Outcomes and the state monad *)

Inductive outcome (A : Type) : Type :=
| Ok (a : A)
| Throw (e : value)
| OutOfFuel.
Arguments Ok {A} a.
Arguments Throw {A} e.
Arguments OutOfFuel {A}.

Definition M (A : Type) : Type := state → outcome A * state.

Definition ret {A} (a : A) : M A := fun s => (Ok a, s).

Definition bind {A B} (m : M A) (f : A → M B) : M B := fun s =>
  match m s with
  | (Ok a, s') => f a s'
  | (Throw e, s') => (Throw e, s')
  | (OutOfFuel, s') => (OutOfFuel, s')
  end.

Notation "'let*' x ':=' m 'in' k" := (bind m (fun x => k))
  (at level 10, x name, m at level 100, k at level 200).
Notation "m ';;' k" := (bind m (fun _ => k))
  (at level 100, k at level 200, right associativity).

Definition TypeError : value := VStr "TypeError".

Definition throw {A} (e : value) : M A := fun s => (Throw e, s).

(** ** Primitive operations *)

(** ToBoolean *)
Definition truthy (v : value) : bool :=
  match v with
  | VUndefined | VNull => false
  | VBool b => b
  | VNum n => negb (Z.eqb n 0)
  | VStr s => negb (String.eqb s EmptyString)
  | VRef _ | VFun _ => true
  end.

(** [v !== false] *)
Definition not_false (v : value) : bool :=
  match v with
  | VBool false => false
  | _ => true
  end.

(** [v === lit] for a string literal [lit] *)
Definition is_str (v : value) (lit : string) : bool :=
  match v with
  | VStr s => String.eqb s lit
  | _ => false
  end.

Definition nullish (v : value) : bool :=
  match v with
  | VUndefined | VNull => true
  | _ => false
  end.

Definition closure_name (f : closure) : string :=
  match f with
  | FDefaultActiveConnections => "getActiveConnections"
  | FDefaultClientIdentifier => "getClientIdentifier"
  | FConnectionActiveConnections _ _ _ => "getActiveConnections"
  | FGroupActiveConnections _ _ _ => "getActiveConnections"
  | FExtern name _ => name
  end.

(** The value of the data property [k] of [v] in heap [h]: an absent
    property reads as [undefined].  It is applied to the property names
    the source reads (never [length] or a method name). *)
Definition field (h : gmap loc obj) (v : value) (k : string) : value :=
  match v with
  | VRef l =>
      match h !! l with
      | Some (OObject fs) => default VUndefined (fs !! k)
      | _ => VUndefined
      end
  | VFun f => if String.eqb k "name" then VStr (closure_name f) else VUndefined
  | _ => VUndefined
  end.

(** [v.k]: a TypeError on [undefined] and [null] *)
Definition get (v : value) (k : string) : M value := fun s =>
  if nullish v then (Throw TypeError, s) else (Ok (field (heap s) v k), s).

Definition fresh_loc (s : state) : loc := fresh (dom (heap s)).

(** A fresh object or array (an object literal, [[]], [new]) *)
Definition alloc (o : obj) : M value := fun s =>
  let l := fresh_loc s in
  (Ok (VRef l), State (<[l := o]> (heap s)) (console s)).

(** [target.k = v] on a plain object (the source only writes to [this]
    inside the constructor). *)
Definition set_prop (target : value) (k : string) (v : value) : M () := fun s =>
  match target with
  | VRef l =>
      match heap s !! l with
      | Some (OObject fs) =>
          (Ok (), State (<[l := OObject (<[k := v]> fs)]> (heap s)) (console s))
      | _ => (Throw TypeError, s)
      end
  | _ => (Throw TypeError, s)
  end.

(** [arr.push(v)] *)
Definition push (arr : value) (v : value) : M () := fun s =>
  match arr with
  | VRef l =>
      match heap s !! l with
      | Some (OArray es) =>
          (Ok (), State (<[l := OArray (es ++ [v])]> (heap s)) (console s))
      | _ => (Throw TypeError, s)
      end
  | _ => (Throw TypeError, s)
  end.

(** [Array.prototype.forEach]: the length is read once, the element at
    each index is read from the heap when its turn comes, and an index
    that is no longer present is skipped. *)
Fixpoint forEach_from (l : loc) (callback : value → M ()) (i n : nat) : M () :=
  fun s =>
    match n with
    | O => (Ok (), s)
    | S n' =>
        match heap s !! l with
        | Some (OArray es) =>
            match es !! i with
            | Some v => (callback v ;; forEach_from l callback (S i) n') s
            | None => forEach_from l callback (S i) n' s
            end
        | _ => forEach_from l callback (S i) n' s
        end
    end.

(** [arr.forEach(callback)]; a receiver that is not an array has no
    [forEach] method, and calling it is a TypeError.  (Objects are plain
    data here: one that carries a [forEach] function of its own would have
    it called by the code, and is kept out by the hypotheses of the
    theorems that walk a collection.) *)
Definition forEach (arr : value) (callback : value → M ()) : M () := fun s =>
  match arr with
  | VRef l =>
      match heap s !! l with
      | Some (OArray es) => forEach_from l callback 0 (length es) s
      | _ => (Throw TypeError, s)
      end
  | _ => (Throw TypeError, s)
  end.

(** [console.log(v)] *)
Definition console_log (args : list value) : M () := fun s =>
  (Ok (), State (heap s) (console s ++ [args])).

(** [v || e]: [e] is evaluated only when [v] is falsy *)
Definition or_else (v : value) (e : M value) : M value :=
  if truthy v then ret v else e.

Definition obj_lit (fs : list (string * value)) : obj :=
  OObject (list_to_map fs).

(** ** GroupListItem.Type *)

Module GroupListItem_Type.
Definition CONNECTION : string := "connection".
Definition CONNECTION_GROUP : string := "connection-group".
Definition SHARING_PROFILE : string := "sharing-profile".
End GroupListItem_Type.

(** ** A sample heap

    A balancing root group with one connection (two sharing profiles) and
    one empty organizational subgroup, and two constructor templates of a
    custom type, the first with a [getClientIdentifier] of its own. *)

Module Sample.

Definition root : value := VRef 1%positive.
Definition connection : value := VRef 4%positive.
Definition subgroup : value := VRef 5%positive.
Definition profile1 : value := VRef 7%positive.
Definition profile2 : value := VRef 8%positive.
Definition custom_template : value := VRef 9%positive.
Definition plain_template : value := VRef 10%positive.

Definition sample_heap : gmap loc obj :=
  list_to_map [
    (1%positive, obj_lit [("identifier", VStr "ROOT"); ("name", VStr "root");
                          ("type", VStr "BALANCING"); ("activeConnections", VNum 3);
                          ("childConnections", VRef 2%positive);
                          ("childConnectionGroups", VRef 3%positive)]);
    (2%positive, OArray [VRef 4%positive]);
    (3%positive, OArray [VRef 5%positive]);
    (4%positive, obj_lit [("identifier", VStr "1"); ("name", VStr "desktop");
                          ("protocol", VStr "vnc"); ("activeConnections", VNum 2);
                          ("sharingProfiles", VRef 6%positive)]);
    (5%positive, obj_lit [("identifier", VStr "2"); ("name", VStr "empty");
                          ("type", VStr "ORGANIZATIONAL")]);
    (6%positive, OArray [VRef 7%positive; VRef 8%positive]);
    (7%positive, obj_lit [("identifier", VStr "5"); ("name", VStr "X")]);
    (8%positive, obj_lit [("identifier", VStr "6"); ("name", VStr "Y")]);
    (9%positive, obj_lit [("type", VStr "custom");
                          ("getClientIdentifier", VFun (FExtern "customIdentifier" 0))]);
    (10%positive, obj_lit [("type", VStr "custom")])].

Definition sample : state := State sample_heap [].

(** Caller-supplied functions: number 0 returns a string, the others
    count 7 active connections. *)
Definition sample_extern (id : nat) (this : value) (args : list value) : M value :=
  match id with
  | O => ret (VStr "custom-id")
  | _ => ret (VNum 7)
  end.

Definition sample_toString (arg : value) : M value := ret (VStr "encoded").

End Sample.

(** ** Heaps with a collection that is not an array

    A connection whose [sharingProfiles] is a plain object and a group whose
    [childConnections] is a number. *)

Module Broken.

Definition connection : value := VRef 1%positive.
Definition group : value := VRef 4%positive.

Definition broken_heap : gmap loc obj :=
  list_to_map [
    (1%positive, obj_lit [("identifier", VStr "1"); ("name", VStr "desktop");
                          ("sharingProfiles", VRef 2%positive)]);
    (2%positive, obj_lit [("0", VRef 3%positive)]);
    (3%positive, obj_lit [("identifier", VStr "5"); ("name", VStr "X")]);
    (4%positive, obj_lit [("identifier", VStr "2"); ("name", VStr "group");
                          ("childConnections", VNum 1)])].

Definition broken : state := State broken_heap [].

End Broken.

(** ** Calling the accessors *)

Section Calls.

(** [ClientIdentifier.toString] and [ClientIdentifier.Types], from
    [@/common/navigation/ClientIdentifier] *)
Variable ClientIdentifier_toString : value → M value.
Variable ClientIdentifier_Types_CONNECTION : value.
Variable ClientIdentifier_Types_CONNECTION_GROUP : value.

(** What a function supplied by the caller does when it is called with a
    receiver and arguments. *)
Variable extern : nat → value → list value → M value.

(** Calling a closure with receiver [this]. *)
Fixpoint invoke (f : closure) (this : value) (args : list value) {struct f} : M value :=
  match f with
  | FDefaultActiveConnections => ret VNull
  | FDefaultClientIdentifier =>
      let* ty := get this "type" in
      if is_str ty GroupListItem_Type.CONNECTION then
        let* dataSource := get this "dataSource" in
        let* id := get this "identifier" in
        let* arg := alloc (obj_lit [("dataSource", dataSource);
                                    ("type", ClientIdentifier_Types_CONNECTION);
                                    ("id", id)]) in
        ClientIdentifier_toString arg
      else
        let* ty := get this "type" in
        if is_str ty GroupListItem_Type.CONNECTION_GROUP then
          let* dataSource := get this "dataSource" in
          let* id := get this "identifier" in
          let* arg := alloc (obj_lit [("dataSource", dataSource);
                                      ("type", ClientIdentifier_Types_CONNECTION_GROUP);
                                      ("id", id)]) in
          ClientIdentifier_toString arg
        else ret VNull
  | FConnectionActiveConnections countActiveConnections dataSource connection =>
      if truthy countActiveConnections then
        match countActiveConnections with
        | VFun g => invoke g VUndefined [dataSource; connection]
        | _ => throw TypeError
        end
      else get connection "activeConnections"
  | FGroupActiveConnections countActiveConnectionGroups dataSource connectionGroup =>
      console_log [VStr "getActiveConnections"] ;;
      if truthy countActiveConnectionGroups then
        match countActiveConnectionGroups with
        | VFun g => invoke g VUndefined [dataSource; connectionGroup]
        | _ => throw TypeError
        end
      else get connectionGroup "activeConnections"
  | FExtern _ id => extern id this args
  end.

(** [f(args)] with receiver [this]: a TypeError when [f] is not a function *)
Definition call (f this : value) (args : list value) : M value :=
  match f with
  | VFun g => invoke g this args
  | _ => throw TypeError
  end.

(** [item.name(args)] *)
Definition call_method (item : value) (name : string) (args : list value) : M value :=
  let* f := get item name in
  call f item args.

End Calls.

(** ** The program *)

Section GroupListItem.

(** [ConnectionGroup.Type.BALANCING], from [@/common/types/ConnectionGroup] *)
Variable BALANCING : string.

(** [this.k = template.k] *)
Definition copy_prop (this template : value) (k : string) : M () :=
  let* v := get template k in
  set_prop this k v.

(** [new GroupListItem(template)] *)
Definition GroupListItem_new (template : value) : M value :=
  let* template := or_else template (alloc (OObject ∅)) in
  let* this := alloc (OObject ∅) in
  copy_prop this template "dataSource" ;;
  copy_prop this template "identifier" ;;
  copy_prop this template "name" ;;
  copy_prop this template "protocol" ;;
  (let* c := get template "children" in
   let* c := or_else c (alloc (OArray [])) in
   set_prop this "children" c) ;;
  copy_prop this template "type" ;;
  copy_prop this template "expandable" ;;
  copy_prop this template "balancing" ;;
  copy_prop this template "expanded" ;;
  (let* g := get template "getActiveConnections" in
   let* g := or_else g (ret (VFun FDefaultActiveConnections)) in
   set_prop this "getActiveConnections" g) ;;
  (let* g := get template "getClientIdentifier" in
   let* g := or_else g (ret (VFun FDefaultClientIdentifier)) in
   set_prop this "getClientIdentifier" g) ;;
  copy_prop this template "wrappedItem" ;;
  (let* w := get template "weight" in
   let* w := or_else w (ret (VNum 0)) in
   set_prop this "weight" w) ;;
  ret this.

(** [GroupListItem.fromSharingProfile(dataSource, sharingProfile)] *)
Definition fromSharingProfile (dataSource sharingProfile : value) : M value :=
  let* name := get sharingProfile "name" in
  let* identifier := get sharingProfile "identifier" in
  let* template := alloc (obj_lit [
    ("name", name);
    ("identifier", identifier);
    ("dataSource", dataSource);
    ("type", VStr GroupListItem_Type.SHARING_PROFILE);
    ("wrappedItem", sharingProfile)]) in
  GroupListItem_new template.

(** [GroupListItem.fromConnection(dataSource, connection,
    includeSharingProfiles, countActiveConnections)].  The callback
    passes [countActiveConnections] as a third argument to
    [fromSharingProfile], which has two parameters and ignores it. *)
Definition fromConnection
    (dataSource connection includeSharingProfiles countActiveConnections : value)
    : M value :=
  let* children := alloc (OArray []) in
  (let* sharingProfiles := get connection "sharingProfiles" in
   if truthy sharingProfiles && not_false includeSharingProfiles then
     forEach sharingProfiles (fun child =>
       let* item := fromSharingProfile dataSource child in
       push children item)
   else ret ()) ;;
  let* name := get connection "name" in
  let* identifier := get connection "identifier" in
  let* protocol := get connection "protocol" in
  let* template := alloc (obj_lit [
    ("name", name);
    ("identifier", identifier);
    ("protocol", protocol);
    ("dataSource", dataSource);
    ("expandable", VBool (not_false includeSharingProfiles));
    ("type", VStr GroupListItem_Type.CONNECTION);
    ("children", children);
    ("getActiveConnections",
       VFun (FConnectionActiveConnections countActiveConnections dataSource connection));
    ("wrappedItem", connection)]) in
  GroupListItem_new template.

(** [GroupListItem.fromConnectionGroup(dataSource, connectionGroup,
    includeConnections, includeSharingProfiles, countActiveConnections,
    countActiveConnectionGroups)].  The recursion follows the heap, so
    the embedding is indexed by a bound on the call depth. *)
Fixpoint fromConnectionGroup (fuel : nat)
    (dataSource connectionGroup includeConnections includeSharingProfiles
     countActiveConnections countActiveConnectionGroups : value) {struct fuel}
    : M value :=
  match fuel with
  | O => fun s => (OutOfFuel, s)
  | S fuel' =>
      let* children := alloc (OArray []) in
      (let* childConnections := get connectionGroup "childConnections" in
       if truthy childConnections && not_false includeConnections then
         forEach childConnections (fun child =>
           let* item := fromConnection dataSource child
                          includeSharingProfiles countActiveConnections in
           push children item)
       else ret ()) ;;
      (let* childConnectionGroups := get connectionGroup "childConnectionGroups" in
       if truthy childConnectionGroups then
         forEach childConnectionGroups (fun child =>
           let* item := fromConnectionGroup fuel' dataSource child
                          includeConnections includeSharingProfiles
                          countActiveConnections countActiveConnectionGroups in
           push children item)
       else ret ()) ;;
      let* name := get connectionGroup "name" in
      let* identifier := get connectionGroup "identifier" in
      let* ty := get connectionGroup "type" in
      let* template := alloc (obj_lit [
        ("name", name);
        ("identifier", identifier);
        ("dataSource", dataSource);
        ("type", VStr GroupListItem_Type.CONNECTION_GROUP);
        ("balancing", VBool (is_str ty BALANCING));
        ("expandable", VBool true);
        ("children", children);
        ("getActiveConnections",
           VFun (FGroupActiveConnections countActiveConnectionGroups dataSource
                   connectionGroup));
        ("wrappedItem", connectionGroup)]) in
      GroupListItem_new template
  end.

(** *** Existing objects are never written

    [keeps L m]: running [m] keeps every object of an earlier heap [h0]
    in place, as long as the locations of [L] (the arrays and objects
    the running builder has allocated itself) are not among them. *)

Definition keeps {A} (L : gset loc) (m : M A) : Prop :=
  ∀ h0 s, h0 ⊆ heap s → L ## dom h0 → h0 ⊆ heap (m s).2.

(** *** Specification vocabulary *)

(** [run m s Q]: from state [s] the computation [m] returns normally, with
    a value and a final state that satisfy [Q]. *)
Definition run {A} (m : M A) (s : state) (Q : A → state → Prop) : Prop :=
  ∃ a s', m s = (Ok a, s') ∧ Q a s'.

(** A reference is live when the heap holds its target. *)
Definition live (h : gmap loc obj) (v : value) : bool :=
  match v with
  | VRef l => bool_decide (is_Some (h !! l))
  | _ => true
  end.

(** [array_of h ok v]: [v] is an array of [h] whose elements satisfy [ok]. *)
Definition array_of (h : gmap loc obj) (ok : value → bool) (v : value) : bool :=
  match v with
  | VRef l =>
      match h !! l with
      | Some (OArray es) => forallb ok es
      | _ => false
      end
  | _ => false
  end.

(** The elements of the array [v], none when [v] is falsy (an absent
    collection). *)
Definition elements_of (h : gmap loc obj) (v : value) : list value :=
  match v with
  | VRef l =>
      match h !! l with
      | Some (OArray es) => es
      | _ => []
      end
  | _ => []
  end.

(** An entity is an object of the heap (any non-nullish live value reads
    the same way). *)
Definition entity (h : gmap loc obj) (v : value) : bool :=
  negb (nullish v) && live h v.

(** A connection whose [sharingProfiles], when the flag asks for them and
    they are present, are an array of entities. *)
Definition connection_ok (h : gmap loc obj) (includeSharingProfiles connection : value)
    : bool :=
  entity h connection &&
  (negb (truthy (field h connection "sharingProfiles") && not_false includeSharingProfiles)
   || array_of h (entity h) (field h connection "sharingProfiles")).

(** A connection group of depth at most [d]: its child collections, when
    present, are arrays of connections and of groups of smaller depth. *)
Fixpoint group_ok (d : nat) (h : gmap loc obj)
    (includeConnections includeSharingProfiles connectionGroup : value) : bool :=
  match d with
  | O => false
  | S d' =>
      entity h connectionGroup &&
      (negb (truthy (field h connectionGroup "childConnections")
             && not_false includeConnections)
       || array_of h (connection_ok h includeSharingProfiles)
            (field h connectionGroup "childConnections")) &&
      (negb (truthy (field h connectionGroup "childConnectionGroups"))
       || array_of h (group_ok d' h includeConnections includeSharingProfiles)
            (field h connectionGroup "childConnectionGroups"))
  end.

(** [v || d] as a value *)
Definition dflt (v d : value) : value := if truthy v then v else d.

(** The properties of [template] as the constructor reads them. *)
Definition template_field (h : gmap loc obj) (template : value) (k : string) : value :=
  if truthy template then field h template k else VUndefined.

(** The object the constructor leaves in [this], in the order of its
    assignments (the last one outermost). *)
Definition item_fields (tf : string → value) (children : value) : gmap string value :=
  <["weight" := dflt (tf "weight") (VNum 0)]>
  (<["wrappedItem" := tf "wrappedItem"]>
  (<["getClientIdentifier" := dflt (tf "getClientIdentifier") (VFun FDefaultClientIdentifier)]>
  (<["getActiveConnections" := dflt (tf "getActiveConnections") (VFun FDefaultActiveConnections)]>
  (<["expanded" := tf "expanded"]>
  (<["balancing" := tf "balancing"]>
  (<["expandable" := tf "expandable"]>
  (<["type" := tf "type"]>
  (<["children" := children]>
  (<["protocol" := tf "protocol"]>
  (<["name" := tf "name"]>
  (<["identifier" := tf "identifier"]>
  (<["dataSource" := tf "dataSource"]> ∅)))))))))))).

(** [item_has h v kvs]: [v] is an object of [h] that holds every binding
    of [kvs]. *)
Definition item_has (h : gmap loc obj) (v : value) (kvs : list (string * value)) : Prop :=
  ∃ l fs, v = VRef l ∧ h !! l = Some (OObject fs) ∧
          Forall (fun kv => fs !! kv.1 = Some kv.2) kvs.

(** [is_array h v es]: [v] is an array of [h] with elements [es]. *)
Definition is_array (h : gmap loc obj) (v : value) (es : list value) : Prop :=
  ∃ l, v = VRef l ∧ h !! l = Some (OArray es).

(** The objects of [h] are still in [h'] (arrays may have grown). *)
Definition objs_kept (h h' : gmap loc obj) : Prop :=
  ∀ l fs, h !! l = Some (OObject fs) → h' !! l = Some (OObject fs).

(** The property [k] of the object literal [kvs]. *)
Definition lit_field (kvs : list (string * value)) (k : string) : value :=
  default VUndefined ((list_to_map kvs : gmap string value) !! k).

(** The elements a builder walks: those of the collection [v] when it is
    present and the flag lets it in. *)
Definition shown (h : gmap loc obj) (flag : bool) (v : value) : list value :=
  if truthy v && flag then elements_of h v else [].

(** What the items built from a sharing profile, a connection and a
    connection group hold, apart from [children]. *)
Definition profile_view (h : gmap loc obj) (dataSource sharingProfile : value)
    : list (string * value) :=
  [("name", field h sharingProfile "name");
   ("identifier", field h sharingProfile "identifier");
   ("dataSource", dataSource);
   ("type", VStr GroupListItem_Type.SHARING_PROFILE);
   ("wrappedItem", sharingProfile);
   ("protocol", VUndefined);
   ("expandable", VUndefined);
   ("balancing", VUndefined);
   ("expanded", VUndefined);
   ("getActiveConnections", VFun FDefaultActiveConnections);
   ("getClientIdentifier", VFun FDefaultClientIdentifier);
   ("weight", VNum 0)].

Definition connection_view (h : gmap loc obj)
    (dataSource connection includeSharingProfiles countActiveConnections : value)
    : list (string * value) :=
  [("name", field h connection "name");
   ("identifier", field h connection "identifier");
   ("protocol", field h connection "protocol");
   ("dataSource", dataSource);
   ("expandable", VBool (not_false includeSharingProfiles));
   ("type", VStr GroupListItem_Type.CONNECTION);
   ("getActiveConnections",
      VFun (FConnectionActiveConnections countActiveConnections dataSource connection));
   ("wrappedItem", connection);
   ("balancing", VUndefined);
   ("expanded", VUndefined);
   ("getClientIdentifier", VFun FDefaultClientIdentifier);
   ("weight", VNum 0)].

Definition group_view (h : gmap loc obj)
    (dataSource connectionGroup countActiveConnectionGroups : value)
    : list (string * value) :=
  [("name", field h connectionGroup "name");
   ("identifier", field h connectionGroup "identifier");
   ("dataSource", dataSource);
   ("type", VStr GroupListItem_Type.CONNECTION_GROUP);
   ("balancing", VBool (is_str (field h connectionGroup "type") BALANCING));
   ("expandable", VBool true);
   ("getActiveConnections",
      VFun (FGroupActiveConnections countActiveConnectionGroups dataSource
              connectionGroup));
   ("wrappedItem", connectionGroup);
   ("protocol", VUndefined);
   ("expanded", VUndefined);
   ("getClientIdentifier", VFun FDefaultClientIdentifier);
   ("weight", VNum 0)].

(** The state after [console.log('getActiveConnections')]. *)
Definition logged (s : state) : state :=
  State (heap s) (console s ++ [[VStr "getActiveConnections"]]).

(** [quiet m]: running [m] writes nothing to the console. *)
Definition quiet {A} (m : M A) : Prop := ∀ s, console (m s).2 = console s.

(** The properties the constructor copies from its template as they are. *)
Definition copied_properties : list string :=
  ["dataSource"; "identifier"; "name"; "protocol"; "type"; "expandable";
   "balancing"; "expanded"; "wrappedItem"].

(** [v] is a function *)
Definition is_fun (v : value) : bool :=
  match v with
  | VFun _ => true
  | _ => false
  end.

(** *** Item trees

    [profile_tree], [connection_tree] and [group_tree] describe a whole
    item tree: the item built from an entity of the source heap [h0], its
    [children] array and, level by level, the items built from the
    entity's collections.  Every object and array of the tree is looked up
    in [hn]. *)

Definition profile_tree (h0 hn : gmap loc obj) (dataSource item sharingProfile : value)
    : Prop :=
  ∃ ch, item_has hn item (("children", ch) :: profile_view h0 dataSource sharingProfile) ∧
        is_array hn ch [].

Definition connection_tree (h0 hn : gmap loc obj)
    (dataSource includeSharingProfiles countActiveConnections item connection : value)
    : Prop :=
  ∃ ch kids,
    item_has hn item
      (("children", ch) :: connection_view h0 dataSource connection
                             includeSharingProfiles countActiveConnections) ∧
    is_array hn ch kids ∧
    Forall2 (profile_tree h0 hn dataSource) kids
      (shown h0 (not_false includeSharingProfiles) (field h0 connection "sharingProfiles")).

Fixpoint group_tree (d : nat) (h0 hn : gmap loc obj)
    (dataSource includeConnections includeSharingProfiles countActiveConnections
     countActiveConnectionGroups item connectionGroup : value) : Prop :=
  match d with
  | O => False
  | S d' =>
      ∃ ch ckids gkids,
        item_has hn item
          (("children", ch) :: group_view h0 dataSource connectionGroup
                                 countActiveConnectionGroups) ∧
        is_array hn ch (ckids ++ gkids) ∧
        Forall2 (connection_tree h0 hn dataSource includeSharingProfiles
                   countActiveConnections) ckids
          (shown h0 (not_false includeConnections)
             (field h0 connectionGroup "childConnections")) ∧
        Forall2 (group_tree d' h0 hn dataSource includeConnections
                   includeSharingProfiles countActiveConnections
                   countActiveConnectionGroups) gkids
          (shown h0 true (field h0 connectionGroup "childConnectionGroups"))
  end.

Lemma fresh_loc_None s : heap s !! fresh_loc s = None.
Proof.
  unfold fresh_loc. apply (not_elem_of_dom (D := gset loc)).
  apply (is_fresh (dom (heap s))).
Qed.

Lemma keeps_ret {A} L (a : A) : keeps L (ret a).
Proof. by intros h0 s Hsub _. Qed.

Lemma keeps_get L v k : keeps L (get v k).
Proof. intros h0 s Hsub _. unfold get. by destruct (nullish v). Qed.

Lemma keeps_bind {A B} L (m : M A) (f : A → M B) :
  keeps L m → (∀ a, keeps L (f a)) → keeps L (bind m f).
Proof.
  intros Hm Hf h0 s Hsub Hdisj. unfold bind.
  specialize (Hm h0 s Hsub Hdisj).
  destruct (m s) as [[a|e|] s1]; simpl in *; [by apply Hf | done | done].
Qed.

Lemma keeps_bind_alloc {B} L o (f : value → M B) :
  (∀ l, keeps ({[l]} ∪ L) (f (VRef l))) → keeps L (bind (alloc o) f).
Proof.
  intros Hf h0 s Hsub Hdisj. unfold bind, alloc.
  assert (Hnew : h0 !! fresh_loc s = None).
  { eapply lookup_weaken_None; [apply fresh_loc_None | done]. }
  apply Hf; simpl.
  - by apply insert_subseteq_r.
  - apply (not_elem_of_dom (D := gset loc)) in Hnew.
    apply disjoint_union_l. split; [| done].
    by apply disjoint_singleton_l.
Qed.

Lemma keeps_alloc L o : keeps L (alloc o).
Proof.
  intros h0 s Hsub _. unfold alloc; simpl.
  apply insert_subseteq_r; [| done].
  eapply lookup_weaken_None; [apply fresh_loc_None | done].
Qed.

Lemma keeps_set_prop (L : gset loc) l k v :
  l ∈ L → keeps L (set_prop (VRef l) k v).
Proof.
  intros Hl h0 s Hsub Hdisj. unfold set_prop.
  destruct (heap s !! l) as [[fs|es]|]; simpl; try done.
  apply insert_subseteq_r; [| done].
  apply not_elem_of_dom. set_solver.
Qed.

Lemma keeps_push (L : gset loc) l v :
  l ∈ L → keeps L (push (VRef l) v).
Proof.
  intros Hl h0 s Hsub Hdisj. unfold push.
  destruct (heap s !! l) as [[fs|es]|]; simpl; try done.
  apply insert_subseteq_r; [| done].
  apply not_elem_of_dom. set_solver.
Qed.

Lemma keeps_forEach_from L l callback i n :
  (∀ v, keeps L (callback v)) → keeps L (forEach_from l callback i n).
Proof.
  intros Hcb. revert i. induction n as [|n IH]; intros i h0 s Hsub Hdisj; simpl.
  - done.
  - destruct (heap s !! l) as [[fs|es]|]; try by apply IH.
    destruct (es !! i); [| by apply IH].
    by apply (keeps_bind L (callback v) (fun _ => forEach_from l callback (S i) n)).
Qed.

Lemma keeps_forEach L arr callback :
  (∀ v, keeps L (callback v)) → keeps L (forEach arr callback).
Proof.
  intros Hcb h0 s Hsub Hdisj. unfold forEach.
  destruct arr as [| | | | |l|]; try done.
  destruct (heap s !! l) as [[fs|es]|]; try done.
  by apply (keeps_forEach_from L l callback 0 (length es)).
Qed.

Lemma keeps_copy_prop (L : gset loc) l template k :
  l ∈ L → keeps L (copy_prop (VRef l) template k).
Proof.
  intros Hl. apply keeps_bind; [apply keeps_get |].
  intros v. by apply keeps_set_prop.
Qed.

Lemma keeps_or_else_ret L v w : keeps L (or_else v (ret w)).
Proof. unfold or_else. destruct (truthy v); apply keeps_ret. Qed.

Lemma keeps_or_else_alloc L v o : keeps L (or_else v (alloc o)).
Proof. unfold or_else. destruct (truthy v); [apply keeps_ret | apply keeps_alloc]. Qed.

Lemma GroupListItem_new_keeps L template : keeps L (GroupListItem_new template).
Proof.
  unfold GroupListItem_new.
  apply keeps_bind; [apply keeps_or_else_alloc |]. intros t.
  apply keeps_bind_alloc. intros l.
  assert (Hl : l ∈ ({[l]} ∪ L : gset loc)) by set_solver.
  repeat first
    [ apply keeps_ret
    | apply keeps_get
    | by apply keeps_copy_prop
    | by apply keeps_set_prop
    | apply keeps_or_else_ret
    | apply keeps_or_else_alloc
    | apply keeps_bind
    | intros ? ].
Qed.

Lemma fromSharingProfile_keeps L dataSource sharingProfile :
  keeps L (fromSharingProfile dataSource sharingProfile).
Proof.
  unfold fromSharingProfile.
  do 2 (apply keeps_bind; [apply keeps_get | intros ?]).
  apply keeps_bind; [apply keeps_alloc | intros ?].
  apply GroupListItem_new_keeps.
Qed.

Lemma fromConnection_keeps L dataSource connection includeSharingProfiles
    countActiveConnections :
  keeps L (fromConnection dataSource connection includeSharingProfiles
             countActiveConnections).
Proof.
  unfold fromConnection.
  apply keeps_bind_alloc. intros lc.
  assert (Hl : lc ∈ ({[lc]} ∪ L : gset loc)) by set_solver.
  apply keeps_bind.
  { apply keeps_bind; [apply keeps_get | intros sp].
    destruct (truthy sp && not_false includeSharingProfiles); [| apply keeps_ret].
    apply keeps_forEach. intros child.
    apply keeps_bind; [apply fromSharingProfile_keeps | intros item].
    by apply keeps_push. }
  intros _.
  do 3 (apply keeps_bind; [apply keeps_get | intros ?]).
  apply keeps_bind; [apply keeps_alloc | intros ?].
  apply GroupListItem_new_keeps.
Qed.

Lemma fromConnectionGroup_keeps fuel : ∀ L dataSource connectionGroup
    includeConnections includeSharingProfiles countActiveConnections
    countActiveConnectionGroups,
  keeps L (fromConnectionGroup fuel dataSource connectionGroup
             includeConnections includeSharingProfiles countActiveConnections
             countActiveConnectionGroups).
Proof.
  induction fuel as [|fuel IH]; intros L ds g ic isp cac cacg; simpl.
  { by intros h0 s Hsub _. }
  apply keeps_bind_alloc. intros lc.
  assert (Hl : lc ∈ ({[lc]} ∪ L : gset loc)) by set_solver.
  apply keeps_bind.
  { apply keeps_bind; [apply keeps_get | intros cc].
    destruct (truthy cc && not_false ic); [| apply keeps_ret].
    apply keeps_forEach. intros child.
    apply keeps_bind; [apply fromConnection_keeps | intros item].
    by apply keeps_push. }
  intros _.
  apply keeps_bind.
  { apply keeps_bind; [apply keeps_get | intros cg].
    destruct (truthy cg); [| apply keeps_ret].
    apply keeps_forEach. intros child.
    apply keeps_bind; [apply IH | intros item].
    by apply keeps_push. }
  intros _.
  do 3 (apply keeps_bind; [apply keeps_get | intros ?]).
  apply keeps_bind; [apply keeps_alloc | intros ?].
  apply GroupListItem_new_keeps.
Qed.

(** *** Rules for [run] *)

Lemma run_ret {A} (a : A) s Q : Q a s → run (ret a) s Q.
Proof. intros HQ. by exists a, s. Qed.

Lemma run_bind {A B} (m : M A) (f : A → M B) s Q :
  run m s (fun a s' => run (f a) s' Q) → run (bind m f) s Q.
Proof.
  intros (a & s1 & Hm & b & s2 & Hf & HQ).
  exists b, s2. split; [| done]. unfold bind. by rewrite Hm.
Qed.

Lemma run_mono {A} (m : M A) s (Q Q' : A → state → Prop) :
  run m s Q → (∀ a s', Q a s' → Q' a s') → run m s Q'.
Proof. intros (a & s' & Hm & HQ) HQQ. exists a, s'. eauto. Qed.

Lemma run_get v k s Q :
  nullish v = false → Q (field (heap s) v k) s → run (get v k) s Q.
Proof.
  intros Hv HQ. exists (field (heap s) v k), s. split; [| done].
  unfold get. by rewrite Hv.
Qed.

Lemma run_alloc o h c Q :
  (∀ l, h !! l = None → Q (VRef l) (State (<[l := o]> h) c)) →
  run (alloc o) (State h c) Q.
Proof.
  intros HQ. eexists _, _. split; [reflexivity |].
  apply HQ. apply (fresh_loc_None (State h c)).
Qed.

(** Allocation while [this] is being filled: the new location is kept
    below the binding of [this]. *)
Lemma run_alloc_under o l x h c Q :
  (∀ l', h !! l' = None → l' ≠ l → Q (VRef l') (State (<[l := x]> (<[l' := o]> h)) c)) →
  run (alloc o) (State (<[l := x]> h) c) Q.
Proof.
  intros HQ. apply run_alloc. intros l' Hl'.
  apply lookup_insert_None in Hl' as [Hl' Hne].
  rewrite insert_insert_ne by done. by apply HQ.
Qed.

Lemma field_insert_fresh h l o v k :
  h !! l = None → live h v = true → field (<[l := o]> h) v k = field h v k.
Proof.
  intros Hl Hv. destruct v as [| | | | |l'|]; try done.
  simpl in *. apply bool_decide_eq_true in Hv as [x Hx].
  rewrite lookup_insert_ne; [done | congruence].
Qed.

Lemma live_insert h l o v : live h v = true → live (<[l := o]> h) v = true.
Proof.
  destruct v as [| | | | |l'|]; try done. simpl.
  rewrite !bool_decide_eq_true. intros [x Hx].
  destruct (decide (l = l')) as [->|Hne].
  - rewrite lookup_insert_eq. eauto.
  - rewrite lookup_insert_ne by done. eauto.
Qed.

Lemma run_set_this l fs h c k v Q :
  Q () (State (<[l := OObject (<[k := v]> fs)]> h) c) →
  run (set_prop (VRef l) k v) (State (<[l := OObject fs]> h) c) Q.
Proof.
  intros HQ. eexists _, _. split; [| exact HQ].
  unfold set_prop; simpl. by rewrite lookup_insert_eq, insert_insert_eq.
Qed.

Lemma run_copy_this l fs h c t k Q :
  nullish t = false → h !! l = None → live h t = true →
  Q () (State (<[l := OObject (<[k := field h t k]> fs)]> h) c) →
  run (copy_prop (VRef l) t k) (State (<[l := OObject fs]> h) c) Q.
Proof.
  intros Ht Hl Hlive HQ. unfold copy_prop.
  apply run_bind, run_get; [done |]. simpl.
  rewrite field_insert_fresh by done. by apply run_set_this.
Qed.

Lemma run_get_under l x h c t k Q :
  nullish t = false → h !! l = None → live h t = true →
  Q (field h t k) (State (<[l := x]> h) c) →
  run (get t k) (State (<[l := x]> h) c) Q.
Proof.
  intros Ht Hl Hlive HQ. apply run_get; [done |]. simpl.
  by rewrite field_insert_fresh.
Qed.

Lemma run_or_else_ret v d s Q : Q (dflt v d) s → run (or_else v (ret d)) s Q.
Proof. intros HQ. unfold or_else, dflt in *. destruct (truthy v); by apply run_ret. Qed.

Lemma truthy_not_nullish v : truthy v = true → nullish v = false.
Proof. by destruct v. Qed.

Lemma or_else_truthy v e : truthy v = true → or_else v e = ret v.
Proof. intros Hv. unfold or_else. by rewrite Hv. Qed.

Lemma or_else_falsy v e : truthy v = false → or_else v e = e.
Proof. intros Hv. unfold or_else. by rewrite Hv. Qed.

(** The constructor on a template that is present. *)
Lemma GroupListItem_new_truthy template h c :
  truthy template = true → live h template = true →
  run (GroupListItem_new template) (State h c) (fun v s' =>
    ∃ l ch, v = VRef l ∧ h !! l = None ∧ console s' = c ∧
      heap s' !! l = Some (OObject (item_fields (field h template) ch)) ∧
      if truthy (field h template "children") then ch = field h template "children"
      else ∃ lc, ch = VRef lc ∧ h !! lc = None ∧ heap s' !! lc = Some (OArray [])).
Proof.
  intros Ht Hlive. pose proof (truthy_not_nullish _ Ht) as Hn.
  unfold GroupListItem_new. rewrite (or_else_truthy template) by done.
  apply run_bind, run_ret.
  apply run_bind, run_alloc. intros l Hl.
  do 4 (apply run_bind, run_copy_this; [done..|]).
  apply run_bind, run_bind, run_get_under; [done..|].
  destruct (truthy (field h template "children")) eqn:Hch.
  - rewrite or_else_truthy by done.
    apply run_bind, run_ret. apply run_set_this.
    do 4 (apply run_bind, run_copy_this; [done..|]).
    do 2 (apply run_bind, run_bind, run_get_under; [done..|];
          apply run_bind, run_or_else_ret, run_set_this).
    apply run_bind, run_copy_this; [done..|].
    apply run_bind, run_bind, run_get_under; [done..|].
    apply run_bind, run_or_else_ret, run_set_this.
    apply run_ret. exists l, (field h template "children").
    simpl. rewrite lookup_insert_eq.
    repeat split; try done.
  - rewrite or_else_falsy by done.
    apply run_bind, run_alloc_under. intros lc Hlc Hne.
    assert (Hl' : <[lc := OArray []]> h !! l = None).
    { by rewrite lookup_insert_ne. }
    assert (Hlive' : live (<[lc := OArray []]> h) template = true).
    { by apply live_insert. }
    apply run_set_this.
    do 4 (apply run_bind, run_copy_this; [done..|]).
    do 2 (apply run_bind, run_bind, run_get_under; [done..|];
          apply run_bind, run_or_else_ret, run_set_this).
    apply run_bind, run_copy_this; [done..|].
    apply run_bind, run_bind, run_get_under; [done..|].
    apply run_bind, run_or_else_ret, run_set_this.
    apply run_ret. exists l, (VRef lc).
    simpl. rewrite lookup_insert_eq.
    rewrite !(field_insert_fresh h lc) by done.
    repeat split; try done.
    exists lc. rewrite lookup_insert_ne by done.
    by rewrite lookup_insert_eq.
Qed.

Lemma item_fields_ext tf tf' ch :
  (∀ k, tf k = tf' k) → item_fields tf ch = item_fields tf' ch.
Proof. intros H. unfold item_fields. by rewrite !H. Qed.

Lemma field_lit h l kvs k :
  field (<[l := obj_lit kvs]> h) (VRef l) k = lit_field kvs k.
Proof. unfold field, obj_lit, lit_field. by rewrite lookup_insert_eq. Qed.

(** *** Heaps that grow *)

Lemma objs_kept_refl h : objs_kept h h.
Proof. by intros l fs. Qed.

Lemma objs_kept_trans h1 h2 h3 : objs_kept h1 h2 → objs_kept h2 h3 → objs_kept h1 h3.
Proof. intros H12 H23 l fs Hl. eauto. Qed.

Lemma objs_kept_subseteq (h h' : gmap loc obj) : h ⊆ h' → objs_kept h h'.
Proof. intros Hsub l fs Hl. by eapply lookup_weaken. Qed.

Lemma objs_kept_push (h : gmap loc obj) l es es' :
  h !! l = Some (OArray es) → objs_kept h (<[l := OArray es']> h).
Proof.
  intros Hl l' fs Hl'. rewrite lookup_insert_ne; [done | congruence].
Qed.

Lemma item_has_kept h h' v kvs : item_has h v kvs → objs_kept h h' → item_has h' v kvs.
Proof. intros (l & fs & -> & Hl & Hfs) Hk. exists l, fs. eauto. Qed.

Lemma item_has_field h v kvs k x :
  item_has h v kvs → (k, x) ∈ kvs → field h v k = x.
Proof.
  intros (l & fs & -> & Hl & Hfs) Hin. simpl. rewrite Hl.
  rewrite Forall_forall in Hfs. specialize (Hfs _ Hin). simpl in Hfs.
  by rewrite Hfs.
Qed.

(** Membership of a binding in one of the views. *)
Ltac in_view :=
  unfold profile_view, connection_view, group_view;
  repeat first [apply list_elem_of_here | apply list_elem_of_further].

Lemma live_weaken (h h' : gmap loc obj) v : live h v = true → h ⊆ h' → live h' v = true.
Proof.
  destruct v as [| | | | |l|]; try done. simpl.
  rewrite !bool_decide_eq_true. intros [x Hx] Hsub. exists x. by eapply lookup_weaken.
Qed.

Lemma field_weaken (h h' : gmap loc obj) v k :
  live h v = true → h ⊆ h' → field h' v k = field h v k.
Proof.
  destruct v as [| | | | |l|]; try done. simpl.
  rewrite bool_decide_eq_true. intros [x Hx] Hsub.
  by rewrite (lookup_weaken _ _ _ _ Hx Hsub), Hx.
Qed.

Lemma entity_weaken (h h' : gmap loc obj) v : entity h v = true → h ⊆ h' → entity h' v = true.
Proof.
  unfold entity. rewrite !andb_true_iff. intros [Hn Hl] Hsub.
  split; [done |]. by eapply live_weaken.
Qed.

Lemma entity_nullish h v : entity h v = true → nullish v = false.
Proof. unfold entity. rewrite andb_true_iff, negb_true_iff. tauto. Qed.

Lemma entity_live h v : entity h v = true → live h v = true.
Proof. unfold entity. rewrite andb_true_iff. tauto. Qed.

Lemma array_of_inv h ok v :
  array_of h ok v = true →
  ∃ l es, v = VRef l ∧ h !! l = Some (OArray es) ∧ Forall (fun x => ok x = true) es.
Proof.
  destruct v as [| | | | |l|]; try done. simpl.
  destruct (h !! l) as [[fs|es]|] eqn:Hl; try done.
  intros Hall. exists l, es. repeat split; [done |].
  apply Forall_forall. intros x Hx. rewrite forallb_forall in Hall.
  by apply Hall, list_elem_of_In.
Qed.

Lemma array_of_weaken (h h' : gmap loc obj) (ok ok' : value → bool) v :
  (∀ x, ok x = true → ok' x = true) → h ⊆ h' →
  array_of h ok v = true → array_of h' ok' v = true.
Proof.
  intros Hok Hsub Ha. apply array_of_inv in Ha as (l & es & -> & Hl & Hes).
  simpl. rewrite (lookup_weaken _ _ _ _ Hl Hsub).
  apply forallb_forall. intros x Hx. apply Hok.
  rewrite Forall_forall in Hes. by apply Hes, list_elem_of_In.
Qed.

(** *** Loops *)

Lemma run_keeps {A} (m : M A) s Q :
  keeps ∅ m → run m s Q → run m s (fun a s' => heap s ⊆ heap s' ∧ Q a s').
Proof.
  intros Hk (a & s' & Hm & HQ). exists a, s'. repeat split; [done | | done].
  specialize (Hk (heap s) s). rewrite Hm in Hk. apply Hk; [done | set_solver].
Qed.

Lemma run_push l es v s Q :
  heap s !! l = Some (OArray es) →
  Q () (State (<[l := OArray (es ++ [v])]> (heap s)) (console s)) →
  run (push (VRef l) v) s Q.
Proof.
  intros Hl HQ. eexists _, _. split; [| exact HQ].
  unfold push. by rewrite Hl.
Qed.

Lemma run_forEach_from l es callback (I : nat → state → Prop) :
  (∀ j s, I j s → heap s !! l = Some (OArray es)) →
  (∀ j v s, es !! j = Some v → I j s → run (callback v) s (fun _ s' => I (S j) s')) →
  ∀ n i s, i + n = length es → I i s →
    run (forEach_from l callback i n) s (fun _ s' => I (length es) s').
Proof.
  intros Hsrc Hstep. induction n as [|n IH]; intros i s Hlen Hi.
  - apply run_ret. by replace (length es) with i by lia.
  - destruct (lookup_lt_is_Some_2 es i) as [v Hv]; [lia |].
    assert (Heq : forEach_from l callback i (S n) s
                  = (callback v ;; forEach_from l callback (S i) n) s).
    { cbn [forEach_from]. by rewrite (Hsrc _ _ Hi), Hv. }
    unfold run. rewrite Heq. apply run_bind.
    eapply run_mono; [by apply Hstep |].
    intros u s' Hs'. apply IH; [lia | done].
Qed.

Lemma run_forEach l es callback s Q :
  heap s !! l = Some (OArray es) →
  run (forEach_from l callback 0 (length es)) s Q →
  run (forEach (VRef l) callback) s Q.
Proof. intros Hl Hrun. unfold run, forEach. by rewrite Hl. Qed.

(** The loop that every builder runs: build an item from each element
    of the source collection and push it onto the array at [lc]. *)
Lemma run_push_loop (build : value → M value) (R : gmap loc obj → value → value → Prop)
    (ok : value → bool) (h : gmap loc obj) c lc coll (b : bool) kids0 s1 :
  h !! lc = None → h ⊆ heap s1 → console s1 = c →
  heap s1 !! lc = Some (OArray kids0) →
  (b = true → array_of h ok coll = true) →
  (∀ p s, ok p = true → h ⊆ heap s → console s = c →
     run (build p) s (fun node s' => heap s ⊆ heap s' ∧ console s' = c ∧ R (heap s') node p)) →
  (∀ h1 h2 kid p, R h1 kid p → objs_kept h1 h2 → R h2 kid p) →
  run (if b then forEach coll (fun child =>
                   let* item := build child in push (VRef lc) item)
       else ret ()) s1
    (fun _ s2 => h ⊆ heap s2 ∧ console s2 = c ∧ objs_kept (heap s1) (heap s2) ∧
       ∃ kids, heap s2 !! lc = Some (OArray (kids0 ++ kids)) ∧
               Forall2 (R (heap s2)) kids (if b then elements_of h coll else [])).
Proof.
  intros Hlc Hsub Hc Hkids0 Harr Hbuild Hstable. destruct b.
  2:{ apply run_ret. repeat split; [done.. | apply objs_kept_refl |].
      exists []. by rewrite app_nil_r. }
  destruct (array_of_inv _ _ _ (Harr eq_refl)) as (la & es & -> & Hla & Hes).
  simpl. rewrite Hla.
  apply (run_forEach la es); [by eapply lookup_weaken |].
  set (I := fun (j : nat) (s : state) =>
    h ⊆ heap s ∧ console s = c ∧ objs_kept (heap s1) (heap s) ∧
    ∃ kids, heap s !! lc = Some (OArray (kids0 ++ kids)) ∧
            Forall2 (R (heap s)) kids (take j es)).
  eapply run_mono.
  - apply (run_forEach_from la es _ I).
    + intros j s (Hs & _). by eapply lookup_weaken.
    + intros j v s Hv (Hs & Hcs & Hk & kids & Hl & HR).
      apply run_bind. eapply run_mono.
      { apply Hbuild; [| done | done].
        rewrite Forall_forall in Hes. eapply Hes, list_elem_of_lookup_2, Hv. }
      intros node s' (Hs' & Hcs' & Hnode).
      apply (run_push lc (kids0 ++ kids)); [by eapply lookup_weaken |].
      assert (Hpush : objs_kept (heap s')
                (<[lc := OArray ((kids0 ++ kids) ++ [node])]> (heap s'))).
      { eapply objs_kept_push, lookup_weaken; eauto. }
      repeat split; simpl.
      * apply insert_subseteq_r; [done | by etrans].
      * done.
      * eapply objs_kept_trans; [exact Hk |].
        eapply objs_kept_trans; [by apply objs_kept_subseteq | exact Hpush].
      * exists (kids ++ [node]). rewrite lookup_insert_eq.
        split; [by rewrite <- app_assoc |].
        rewrite (take_S_r _ _ _ Hv). apply Forall2_app.
        -- eapply Forall2_impl; [exact HR |]. intros kid p Hkid.
           eapply Hstable; [exact Hkid |].
           eapply objs_kept_trans; [by apply objs_kept_subseteq | exact Hpush].
        -- constructor; [| constructor]. by eapply Hstable.
    + done.
    + repeat split; [done.. | apply objs_kept_refl |].
      exists []. rewrite app_nil_r. split; [done | constructor].
  - intros u s' (Hs & Hcs & Hk & kids & Hl & HR).
    repeat split; [done.. |]. exists kids. split; [done |].
    by rewrite firstn_all in HR.
Qed.

(** *** The constructor on an object literal *)

Lemma run_new_lit kvs h c :
  run (let* template := alloc (obj_lit kvs) in GroupListItem_new template) (State h c)
    (fun v s' => ∃ l ch, v = VRef l ∧ console s' = c ∧ h ⊆ heap s' ∧ h !! l = None ∧
       heap s' !! l = Some (OObject (item_fields (lit_field kvs) ch)) ∧
       if truthy (lit_field kvs "children") then ch = lit_field kvs "children"
       else ∃ lc, ch = VRef lc ∧ h !! lc = None ∧ heap s' !! lc = Some (OArray [])).
Proof.
  apply run_bind, run_alloc. intros lt Hlt.
  eapply run_mono.
  - apply run_keeps; [apply GroupListItem_new_keeps |].
    apply GroupListItem_new_truthy; [done |].
    simpl. rewrite lookup_insert_eq. by apply bool_decide_eq_true.
  - intros v s' (Hsub & l & ch & -> & Hl & Hc & Hobj & Hch).
    cbn [heap console] in Hsub.
    exists l, ch. apply lookup_insert_None in Hl as [Hl Hne].
    rewrite (item_fields_ext _ (lit_field kvs)) in Hobj by (intros; apply field_lit).
    rewrite !field_lit in Hch.
    assert (Hsub' : h ⊆ heap s').
    { etrans; [| exact Hsub]. by apply insert_subseteq. }
    repeat split; try done.
    destruct (truthy (lit_field kvs "children")); [done |].
    destruct Hch as (lc & -> & Hlc & Harr). exists lc.
    apply lookup_insert_None in Hlc as [Hlc _]. done.
Qed.

Lemma item_has_intro h l fs kvs :
  h !! l = Some (OObject fs) →
  Forall (fun kv => fs !! kv.1 = Some kv.2) kvs →
  item_has h (VRef l) kvs.
Proof. intros Hl Hfs. by exists l, fs. Qed.

(** *** What the builders return *)

Lemma fromSharingProfile_spec dataSource sharingProfile h c :
  entity h sharingProfile = true →
  run (fromSharingProfile dataSource sharingProfile) (State h c) (fun v s' =>
    h ⊆ heap s' ∧ console s' = c ∧
    ∃ ch, item_has (heap s') v (("children", ch) :: profile_view h dataSource sharingProfile) ∧
          is_array (heap s') ch []).
Proof.
  intros He. pose proof (entity_nullish _ _ He) as Hn.
  unfold fromSharingProfile.
  do 2 (apply run_bind, run_get; [done |]).
  eapply run_mono; [apply run_new_lit |]. simpl.
  intros v s' (l & ch & -> & Hc & Hsub & Hl & Hobj & lc & -> & Hlc & Harr).
  repeat split; [done.. |]. exists (VRef lc). split; [| by exists lc].
  eapply item_has_intro; [exact Hobj |].
  repeat constructor; reflexivity.
Qed.

Lemma connection_ok_weaken (h h' : gmap loc obj) isp conn :
  connection_ok h isp conn = true → h ⊆ h' → connection_ok h' isp conn = true.
Proof.
  unfold connection_ok. rewrite !andb_true_iff. intros [He Hsp] Hsub.
  split; [by eapply entity_weaken |].
  rewrite (field_weaken h h') by (done || by apply entity_live).
  apply orb_true_iff in Hsp as [Hsp|Hsp]; apply orb_true_iff; [by left | right].
  eapply array_of_weaken; [| done | exact Hsp].
  intros x Hx. by eapply entity_weaken.
Qed.

Lemma group_ok_weaken d : ∀ (h h' : gmap loc obj) ic isp g,
  group_ok d h ic isp g = true → h ⊆ h' → group_ok d h' ic isp g = true.
Proof.
  induction d as [|d IH]; intros h h' ic isp g; [done |].
  cbn [group_ok]. rewrite !andb_true_iff. intros [[He Hcc] Hcg] Hsub.
  pose proof (entity_live _ _ He) as Hlive.
  rewrite !(field_weaken h h') by done.
  repeat split.
  - by eapply entity_weaken.
  - apply orb_true_iff in Hcc as [Hcc|Hcc]; apply orb_true_iff; [by left | right].
    eapply array_of_weaken; [| done | exact Hcc].
    intros x Hx. by eapply connection_ok_weaken.
  - apply orb_true_iff in Hcg as [Hcg|Hcg]; apply orb_true_iff; [by left | right].
    eapply array_of_weaken; [| done | exact Hcg].
    intros x Hx. by eapply IH.
Qed.

Lemma profile_view_weaken (h h' : gmap loc obj) ds p :
  live h p = true → h ⊆ h' → profile_view h' ds p = profile_view h ds p.
Proof. intros Hl Hsub. unfold profile_view. by rewrite !(field_weaken h h'). Qed.

Lemma connection_view_weaken (h h' : gmap loc obj) ds conn isp cac :
  live h conn = true → h ⊆ h' →
  connection_view h' ds conn isp cac = connection_view h ds conn isp cac.
Proof. intros Hl Hsub. unfold connection_view. by rewrite !(field_weaken h h'). Qed.

Lemma group_view_weaken (h h' : gmap loc obj) ds g cacg :
  live h g = true → h ⊆ h' → group_view h' ds g cacg = group_view h ds g cacg.
Proof. intros Hl Hsub. unfold group_view. by rewrite !(field_weaken h h'). Qed.

Lemma item_has_tail h v kv kvs : item_has h v (kv :: kvs) → item_has h v kvs.
Proof.
  intros (l & fs & -> & Hl & Hfs). exists l, fs. repeat split; [done |].
  by inversion Hfs.
Qed.

Lemma orb_negb_true (b x : bool) : negb b || x = true → b = true → x = true.
Proof. by destruct b, x. Qed.

Lemma fromConnection_spec dataSource connection includeSharingProfiles
    countActiveConnections h c :
  connection_ok h includeSharingProfiles connection = true →
  run (fromConnection dataSource connection includeSharingProfiles
         countActiveConnections) (State h c) (fun v s' =>
    h ⊆ heap s' ∧ console s' = c ∧
    ∃ ch kids,
      item_has (heap s') v
        (("children", ch) :: connection_view h dataSource connection
                               includeSharingProfiles countActiveConnections) ∧
      is_array (heap s') ch kids ∧
      Forall2 (fun kid p => item_has (heap s') kid (profile_view h dataSource p)) kids
        (shown h (not_false includeSharingProfiles) (field h connection "sharingProfiles"))).
Proof.
  intros Hok. apply andb_true_iff in Hok as [He Hsp].
  pose proof (entity_nullish _ _ He) as Hn. pose proof (entity_live _ _ He) as Hlive.
  unfold fromConnection.
  apply run_bind, run_alloc. intros lc Hlc.
  apply run_bind. eapply run_mono.
  { apply run_bind, run_get_under; [done.. |].
    apply (run_push_loop (fromSharingProfile dataSource)
             (fun h' kid p => item_has h' kid (profile_view h dataSource p))
             (entity h) h c lc _ _ []).
    - done.
    - by apply insert_subseteq.
    - done.
    - apply lookup_insert_eq.
    - by apply orb_negb_true.
    - intros p [hs cs] Hp Hs Hcs. cbn [heap console] in *.
      eapply run_mono; [apply fromSharingProfile_spec; by eapply entity_weaken |].
      intros node s' (Hsub & Hc' & ch & Hitem & _).
      repeat split; [done | congruence |]. apply item_has_tail in Hitem.
      by rewrite (profile_view_weaken h hs) in Hitem by (done || by apply entity_live).
    - intros h1 h2 kid p. apply item_has_kept. }
  intros u [h2 c2] (Hs2 & Hc2 & Hk & kids & Hkids & HR). cbn [heap console] in *.
  do 3 (apply run_bind, run_get; [done |]). cbn [heap].
  rewrite !(field_weaken h h2) by done.
  eapply run_mono; [apply run_new_lit |].
  intros v s' (l & ch & -> & Hc' & Hsub' & Hl & Hobj & Hch).
  change (ch = VRef lc) in Hch. subst ch.
  assert (Hsub : h ⊆ heap s') by (by etrans).
  repeat split; [done | congruence |].
  exists (VRef lc), kids. repeat split.
  - eapply item_has_intro; [exact Hobj |]. repeat constructor; reflexivity.
  - exists lc. split; [done |]. by eapply lookup_weaken.
  - eapply Forall2_impl; [exact HR |]. intros kid p Hkid.
    eapply item_has_kept; [exact Hkid | by apply objs_kept_subseteq].
Qed.

Lemma fromConnectionGroup_spec (fuel : nat) : ∀ (d : nat) dataSource connectionGroup
    includeConnections includeSharingProfiles countActiveConnections
    countActiveConnectionGroups h c,
  (d ≤ fuel)%nat →
  group_ok d h includeConnections includeSharingProfiles connectionGroup = true →
  run (fromConnectionGroup fuel dataSource connectionGroup includeConnections
         includeSharingProfiles countActiveConnections countActiveConnectionGroups)
    (State h c) (fun v s' =>
    h ⊆ heap s' ∧ console s' = c ∧
    ∃ ch ckids gkids,
      item_has (heap s') v
        (("children", ch) :: group_view h dataSource connectionGroup
                               countActiveConnectionGroups) ∧
      is_array (heap s') ch (ckids ++ gkids) ∧
      Forall2 (fun kid p => item_has (heap s') kid
                 (connection_view h dataSource p includeSharingProfiles
                    countActiveConnections)) ckids
        (shown h (not_false includeConnections)
           (field h connectionGroup "childConnections")) ∧
      Forall2 (fun kid p => item_has (heap s') kid
                 (group_view h dataSource p countActiveConnectionGroups)) gkids
        (shown h true (field h connectionGroup "childConnectionGroups"))).
Proof.
  induction fuel as [|fuel IH]; intros d ds g ic isp cac cacg h c Hd Hok.
  { assert (d = 0) as -> by lia. done. }
  destruct d as [|d]; [done |].
  cbn [group_ok] in Hok. apply andb_true_iff in Hok as [Hok Hcg].
  apply andb_true_iff in Hok as [He Hcc].
  pose proof (entity_nullish _ _ He) as Hn. pose proof (entity_live _ _ He) as Hlive.
  cbn [fromConnectionGroup].
  apply run_bind, run_alloc. intros lc Hlc.
  apply run_bind. eapply run_mono.
  { apply run_bind, run_get_under; [done.. |].
    apply (run_push_loop (fun child => fromConnection ds child isp cac)
             (fun h' kid p => item_has h' kid (connection_view h ds p isp cac))
             (connection_ok h isp) h c lc _ _ []).
    - done.
    - by apply insert_subseteq.
    - done.
    - apply lookup_insert_eq.
    - by apply orb_negb_true.
    - intros p [hs cs] Hp Hs Hcs. cbn [heap console] in *.
      eapply run_mono; [apply fromConnection_spec; by eapply connection_ok_weaken |].
      intros node s' (Hsub & Hc' & ch & kids & Hitem & _).
      repeat split; [done | congruence |]. apply item_has_tail in Hitem.
      apply andb_true_iff in Hp as [Hp _].
      by rewrite (connection_view_weaken h hs) in Hitem by (done || by apply entity_live).
    - intros h1 h2 kid p. apply item_has_kept. }
  intros u s1 (Hs1 & Hc1 & Hk1 & ckids & Hckids & HRc). cbn [heap console] in *.
  apply run_bind. eapply run_mono.
  { apply run_bind, run_get; [done |].
    rewrite (field_weaken h (heap s1)) by done.
    apply (run_push_loop (fun child => fromConnectionGroup fuel ds child ic isp cac cacg)
             (fun h' kid p => item_has h' kid (group_view h ds p cacg))
             (group_ok d h ic isp) h c lc _ _ ([] ++ ckids)).
    - done.
    - done.
    - done.
    - done.
    - by apply orb_negb_true.
    - intros p [hs cs] Hp Hs Hcs. cbn [heap console] in *.
      eapply run_mono.
      { apply (IH d); [lia |]. by eapply group_ok_weaken. }
      intros node s' (Hsub & Hc' & ch & ck & gk & Hitem & _).
      repeat split; [done | congruence |]. apply item_has_tail in Hitem.
      assert (Hp' : live h p = true).
      { destruct d; [done |]. cbn [group_ok] in Hp.
        apply andb_true_iff in Hp as [Hp _]. apply andb_true_iff in Hp as [Hp _].
        by apply entity_live. }
      by rewrite (group_view_weaken h hs) in Hitem.
    - intros h1 h2 kid p. apply item_has_kept. }
  intros u' [h2 c2] (Hs2 & Hc2 & Hk2 & gkids & Hkids & HRg). cbn [heap console] in *.
  do 3 (apply run_bind, run_get; [done |]). cbn [heap].
  rewrite !(field_weaken h h2) by done.
  eapply run_mono; [apply run_new_lit |].
  intros v s' (l & ch & -> & Hc' & Hsub' & Hl & Hobj & Hch).
  change (ch = VRef lc) in Hch. subst ch.
  assert (Hsub : h ⊆ heap s') by (by etrans).
  repeat split; [done | congruence |].
  exists (VRef lc), ckids, gkids. repeat split.
  - eapply item_has_intro; [exact Hobj |]. repeat constructor; reflexivity.
  - exists lc. split; [done |]. by eapply lookup_weaken.
  - eapply Forall2_impl; [exact HRc |]. intros kid p Hkid.
    eapply item_has_kept; [exact Hkid |].
    eapply objs_kept_trans; [exact Hk2 | by apply objs_kept_subseteq].
  - unfold shown. rewrite andb_true_r.
    eapply Forall2_impl; [exact HRg |]. intros kid p Hkid.
    eapply item_has_kept; [exact Hkid | by apply objs_kept_subseteq].
Qed.

Lemma lit_field_nil k : lit_field [] k = VUndefined.
Proof. unfold lit_field. simpl. by rewrite lookup_empty. Qed.

Lemma GroupListItem_new_falsy template s :
  truthy template = false →
  GroupListItem_new template s
  = (let* t := alloc (obj_lit []) in GroupListItem_new t) s.
Proof.
  intros Ht. unfold GroupListItem_new. rewrite (or_else_falsy template) by done.
  reflexivity.
Qed.

(** The constructor on any template. *)
Lemma GroupListItem_new_spec template h c :
  live h template = true →
  run (GroupListItem_new template) (State h c) (fun v s' =>
    ∃ l ch, v = VRef l ∧ console s' = c ∧ h ⊆ heap s' ∧ h !! l = None ∧
      heap s' !! l = Some (OObject (item_fields (template_field h template) ch)) ∧
      if truthy (template_field h template "children")
      then ch = template_field h template "children"
      else ∃ lc, ch = VRef lc ∧ h !! lc = None ∧ heap s' !! lc = Some (OArray [])).
Proof.
  intros Hlive. unfold template_field. destruct (truthy template) eqn:Ht.
  - eapply run_mono.
    + apply run_keeps; [apply GroupListItem_new_keeps |].
      by apply GroupListItem_new_truthy.
    + intros v s' (Hsub & l & ch & -> & Hl & Hc & Hobj & Hch).
      exists l, ch. by repeat split.
  - unfold run. rewrite GroupListItem_new_falsy by done.
    eapply run_mono; [apply run_new_lit |].
    intros v s' (l & ch & -> & Hc & Hsub & Hl & Hobj & Hch).
    exists l, ch.
    rewrite (item_fields_ext _ (fun _ => VUndefined)) in Hobj
      by (intros; apply lit_field_nil).
    rewrite lit_field_nil in Hch. by repeat split.
Qed.

Lemma is_str_true v lit : is_str v lit = true ↔ v = VStr lit.
Proof.
  destruct v as [| | | |x| |]; simpl; try (split; [done | congruence]).
  rewrite String.eqb_eq. split; congruence.
Qed.

Lemma shown_flag h (flag : bool) v :
  shown h flag v = if flag then elements_of h v else [].
Proof.
  unfold shown. destruct flag; [rewrite andb_true_r | by rewrite andb_false_r].
  by destruct v as [| |[]|[]|[]| |].
Qed.

Lemma run_state {A} (m : M A) s Q :
  run m (State (heap s) (console s)) Q → run m s Q.
Proof. by destruct s. Qed.

(** ** The properties of the specification *)

(** C1.  [fromConnectionGroup] returns an item whose [children] array
    holds first the items built from the elements of [childConnections],
    in source order (all of them unless [includeConnections] is [false],
    none of them then), and after them the items built from the elements
    of [childConnectionGroups], in source order, whatever the flag is.  (A
    collection that is absent has no elements.) *)
Theorem C1_connections_before_groups (d fuel : nat)
    (dataSource connectionGroup includeConnections includeSharingProfiles
     countActiveConnections countActiveConnectionGroups : value) (s : state) :
  (d ≤ fuel)%nat →
  group_ok d (heap s) includeConnections includeSharingProfiles connectionGroup = true →
  ∃ item s' ckids gkids,
    fromConnectionGroup fuel dataSource connectionGroup includeConnections
      includeSharingProfiles countActiveConnections countActiveConnectionGroups s
    = (Ok item, s') ∧
    is_array (heap s') (field (heap s') item "children") (ckids ++ gkids) ∧
    Forall2 (fun kid p => item_has (heap s') kid
               (connection_view (heap s) dataSource p includeSharingProfiles
                  countActiveConnections))
      ckids
      (if not_false includeConnections
       then elements_of (heap s) (field (heap s) connectionGroup "childConnections")
       else []) ∧
    Forall2 (fun kid p => item_has (heap s') kid
               (group_view (heap s) dataSource p countActiveConnectionGroups))
      gkids
      (elements_of (heap s) (field (heap s) connectionGroup "childConnectionGroups")).
Proof.
  intros Hd Hok.
  destruct (run_state _ s _ (fromConnectionGroup_spec fuel d dataSource connectionGroup
    includeConnections includeSharingProfiles countActiveConnections
    countActiveConnectionGroups (heap s) (console s) Hd Hok))
    as (item & s' & Hrun & Hsub & Hc & ch & ckids & gkids & Hitem & Hch & Hck & Hgk).
  exists item, s', ckids, gkids. split; [done |].
  rewrite shown_flag in Hck. rewrite shown_flag in Hgk.
  repeat split; [| done | done].
  by rewrite (item_has_field _ _ _ "children" ch Hitem) by left.
Qed.

(** C2.  For a connection whose [sharingProfiles] is the array [[p1, p2]],
    [fromConnection] with [includeSharingProfiles = true] returns an item
    whose [children] array is [[k1, k2]], where [k1] is the item built from
    [p1] and [k2] the item built from [p2], both of type
    [sharing-profile]. *)
Theorem C2_two_sharing_profiles
    (dataSource connection countActiveConnections p1 p2 : value) (la : loc)
    (s : state) :
  entity (heap s) connection = true →
  field (heap s) connection "sharingProfiles" = VRef la →
  heap s !! la = Some (OArray [p1; p2]) →
  entity (heap s) p1 = true →
  entity (heap s) p2 = true →
  ∃ item s' k1 k2,
    fromConnection dataSource connection (VBool true) countActiveConnections s
    = (Ok item, s') ∧
    is_array (heap s') (field (heap s') item "children") [k1; k2] ∧
    item_has (heap s') k1 (profile_view (heap s) dataSource p1) ∧
    item_has (heap s') k2 (profile_view (heap s) dataSource p2) ∧
    field (heap s') k1 "type" = VStr GroupListItem_Type.SHARING_PROFILE ∧
    field (heap s') k2 "type" = VStr GroupListItem_Type.SHARING_PROFILE.
Proof.
  intros He Hsp Hla H1 H2.
  assert (Hok : connection_ok (heap s) (VBool true) connection = true).
  { unfold connection_ok. rewrite He, Hsp.
    cbn [truthy not_false andb negb orb array_of]. rewrite Hla.
    cbn [forallb]. by rewrite H1, H2. }
  destruct (run_state _ s _ (fromConnection_spec dataSource connection (VBool true)
    countActiveConnections (heap s) (console s) Hok))
    as (item & s' & Hrun & Hsub & Hc & ch & kids & Hitem & Hch & Hkids).
  rewrite shown_flag, Hsp in Hkids. cbn [not_false elements_of] in Hkids.
  rewrite Hla in Hkids.
  apply Forall2_cons_inv_r in Hkids as (k1 & kids' & Hk1 & Hkids & ->).
  apply Forall2_cons_inv_r in Hkids as (k2 & kids'' & Hk2 & Hkids & ->).
  apply Forall2_nil_inv_r in Hkids as ->.
  exists item, s', k1, k2. repeat split; try done.
  - by rewrite (item_has_field _ _ _ "children" ch Hitem) by left.
  - apply (item_has_field _ _ _ _ _ Hk1). in_view.
  - apply (item_has_field _ _ _ _ _ Hk2). in_view.
Qed.

(** C3.  For every connection, [fromConnection] with
    [includeSharingProfiles = false] returns an item whose [children] array
    is empty, whatever the connection's [sharingProfiles] are, and whose
    [expandable] is [false]. *)
Theorem C3_no_sharing_profiles
    (dataSource connection countActiveConnections : value) (s : state) :
  entity (heap s) connection = true →
  ∃ item s',
    fromConnection dataSource connection (VBool false) countActiveConnections s
    = (Ok item, s') ∧
    is_array (heap s') (field (heap s') item "children") [] ∧
    field (heap s') item "expandable" = VBool false.
Proof.
  intros He.
  assert (Hok : connection_ok (heap s) (VBool false) connection = true).
  { unfold connection_ok. rewrite He. simpl. by rewrite andb_false_r. }
  destruct (run_state _ s _ (fromConnection_spec dataSource connection (VBool false)
    countActiveConnections (heap s) (console s) Hok))
    as (item & s' & Hrun & Hsub & Hc & ch & kids & Hitem & Hch & Hkids).
  unfold shown in Hkids. rewrite andb_false_r in Hkids.
  apply Forall2_nil_inv_r in Hkids as ->.
  exists item, s'. repeat split; [done | |].
  - by rewrite (item_has_field _ _ _ "children" ch Hitem) by left.
  - apply (item_has_field _ _ _ _ _ Hitem). in_view.
Qed.

(** C4.  For every connection group, also one without child connections
    and child groups, the item [fromConnectionGroup] returns has
    [expandable = true]. *)
Theorem C4_group_expandable (d fuel : nat)
    (dataSource connectionGroup includeConnections includeSharingProfiles
     countActiveConnections countActiveConnectionGroups : value) (s : state) :
  (d ≤ fuel)%nat →
  group_ok d (heap s) includeConnections includeSharingProfiles connectionGroup = true →
  ∃ item s',
    fromConnectionGroup fuel dataSource connectionGroup includeConnections
      includeSharingProfiles countActiveConnections countActiveConnectionGroups s
    = (Ok item, s') ∧
    field (heap s') item "expandable" = VBool true.
Proof.
  intros Hd Hok.
  destruct (run_state _ s _ (fromConnectionGroup_spec fuel d dataSource connectionGroup
    includeConnections includeSharingProfiles countActiveConnections
    countActiveConnectionGroups (heap s) (console s) Hd Hok))
    as (item & s' & Hrun & Hsub & Hc & ch & ckids & gkids & Hitem & _).
  exists item, s'. split; [done |].
  apply (item_has_field _ _ _ _ _ Hitem). in_view.
Qed.

(** C5.  The [balancing] property of the item [fromConnectionGroup]
    returns is a boolean, [true] exactly when the group's [type] is
    [ConnectionGroup.Type.BALANCING] and [false] for every other type. *)
Theorem C5_balancing_iff (d fuel : nat)
    (dataSource connectionGroup includeConnections includeSharingProfiles
     countActiveConnections countActiveConnectionGroups : value) (s : state) :
  (d ≤ fuel)%nat →
  group_ok d (heap s) includeConnections includeSharingProfiles connectionGroup = true →
  ∃ item s' b,
    fromConnectionGroup fuel dataSource connectionGroup includeConnections
      includeSharingProfiles countActiveConnections countActiveConnectionGroups s
    = (Ok item, s') ∧
    field (heap s') item "balancing" = VBool b ∧
    (b = true ↔ field (heap s) connectionGroup "type" = VStr BALANCING).
Proof.
  intros Hd Hok.
  destruct (run_state _ s _ (fromConnectionGroup_spec fuel d dataSource connectionGroup
    includeConnections includeSharingProfiles countActiveConnections
    countActiveConnectionGroups (heap s) (console s) Hd Hok))
    as (item & s' & Hrun & Hsub & Hc & ch & ckids & gkids & Hitem & _).
  exists item, s', (is_str (field (heap s) connectionGroup "type") BALANCING).
  repeat split; [done | | apply is_str_true | apply is_str_true].
  apply (item_has_field _ _ _ _ _ Hitem). in_view.
Qed.

(** C8.  The builders write to no object or array that exists when they
    are called.  For a sharing profile, a connection whose sharing
    profiles are an array and a connection group whose child collections
    are arrays at every depth, a location that holds [o] before the call
    (the source entity, one of its descendants, anything else) holds the
    same [o] after it, whatever bound on the call depth the run has. *)
Theorem C8_source_unchanged (d fuel : nat)
    (dataSource connection connectionGroup sharingProfile includeConnections
     includeSharingProfiles countActiveConnections countActiveConnectionGroups : value)
    (s : state) (l : loc) (o : obj) :
  entity (heap s) sharingProfile = true →
  connection_ok (heap s) includeSharingProfiles connection = true →
  group_ok d (heap s) includeConnections includeSharingProfiles connectionGroup = true →
  heap s !! l = Some o →
  heap (fromConnection dataSource connection includeSharingProfiles
          countActiveConnections s).2 !! l = Some o ∧
  heap (fromConnectionGroup fuel dataSource connectionGroup includeConnections
          includeSharingProfiles countActiveConnections countActiveConnectionGroups
          s).2 !! l = Some o ∧
  heap (fromSharingProfile dataSource sharingProfile s).2 !! l = Some o.
Proof.
  intros _ _ _ Hl. repeat apply conj; eapply lookup_weaken; try exact Hl.
  - by apply (fromConnection_keeps ∅).
  - by apply (fromConnectionGroup_keeps fuel ∅).
  - by apply (fromSharingProfile_keeps ∅).
Qed.

(** C9.  The [children] of an item is never [null] or [undefined]: the
    constructor keeps the template's [children] when that is truthy and
    stores a fresh empty array otherwise, and each of the three builders
    returns an item whose [children] is an array. *)
Theorem C9_children_never_null (d fuel : nat)
    (template dataSource connection connectionGroup sharingProfile includeConnections
     includeSharingProfiles countActiveConnections countActiveConnectionGroups : value)
    (s : state) :
  live (heap s) template = true →
  entity (heap s) sharingProfile = true →
  connection_ok (heap s) includeSharingProfiles connection = true →
  (d ≤ fuel)%nat →
  group_ok d (heap s) includeConnections includeSharingProfiles connectionGroup = true →
  (∃ item s',
     GroupListItem_new template s = (Ok item, s') ∧
     nullish (field (heap s') item "children") = false ∧
     (truthy (template_field (heap s) template "children") = false →
      is_array (heap s') (field (heap s') item "children") [])) ∧
  (∃ item s',
     fromSharingProfile dataSource sharingProfile s = (Ok item, s') ∧
     is_array (heap s') (field (heap s') item "children") []) ∧
  (∃ item s' kids,
     fromConnection dataSource connection includeSharingProfiles
       countActiveConnections s = (Ok item, s') ∧
     is_array (heap s') (field (heap s') item "children") kids) ∧
  (∃ item s' kids,
     fromConnectionGroup fuel dataSource connectionGroup includeConnections
       includeSharingProfiles countActiveConnections countActiveConnectionGroups s
     = (Ok item, s') ∧
     is_array (heap s') (field (heap s') item "children") kids).
Proof.
  intros Hlive He Hcok Hd Hgok. repeat apply conj.
  - destruct (run_state _ s _ (GroupListItem_new_spec template (heap s) (console s) Hlive))
      as (item & s1 & Hrun & l & ch & -> & Hc & Hsub & Hl & Hobj & Hch).
    exists (VRef l), s1. split; [done |].
    assert (Hfield : field (heap s1) (VRef l) "children" = ch).
    { simpl. by rewrite Hobj. }
    rewrite Hfield.
    destruct (truthy (template_field (heap s) template "children")) eqn:Ht.
    + subst ch. split; [by apply truthy_not_nullish | done].
    + destruct Hch as (lc & -> & Hlc & Harr). split; [done |].
      intros _. by exists lc.
  - destruct (run_state _ s _ (fromSharingProfile_spec dataSource sharingProfile
      (heap s) (console s) He))
      as (item & s1 & Hrun & Hsub & Hc & ch & Hitem & Harr).
    exists item, s1. split; [done |].
    by rewrite (item_has_field _ _ _ "children" ch Hitem) by left.
  - destruct (run_state _ s _ (fromConnection_spec dataSource connection
      includeSharingProfiles countActiveConnections (heap s) (console s) Hcok))
      as (item & s1 & Hrun & Hsub & Hc & ch & kids & Hitem & Harr & _).
    exists item, s1, kids. split; [done |].
    by rewrite (item_has_field _ _ _ "children" ch Hitem) by left.
  - destruct (run_state _ s _ (fromConnectionGroup_spec fuel d dataSource
      connectionGroup includeConnections includeSharingProfiles countActiveConnections
      countActiveConnectionGroups (heap s) (console s) Hd Hgok))
      as (item & s1 & Hrun & Hsub & Hc & ch & ckids & gkids & Hitem & Harr & _).
    exists item, s1, (ckids ++ gkids). split; [done |].
    by rewrite (item_has_field _ _ _ "children" ch Hitem) by left.
Qed.

Lemma bind_ext_r {A B} (m : M A) (f g : A → M B) s :
  (∀ a s', f a s' = g a s') → bind m f s = bind m g s.
Proof. intros Hfg. unfold bind. destruct (m s) as [[a|e|] s']; [apply Hfg | done | done]. Qed.

Lemma bind_ext_l {A B} (m m' : M A) (f : A → M B) s :
  (∀ s', m s' = m' s') → bind m f s = bind m' f s.
Proof. intros Hm. unfold bind. by rewrite Hm. Qed.

Lemma forEach_from_ext l (cb cb' : value → M ()) n :
  (∀ v s, cb v s = cb' v s) →
  ∀ i s, forEach_from l cb i n s = forEach_from l cb' i n s.
Proof.
  intros Hcb. induction n as [|n IH]; intros i s; [done |].
  cbn [forEach_from]. destruct (heap s !! l) as [[fs|es]|]; try apply IH.
  destruct (es !! i); [| apply IH].
  rewrite (bind_ext_l (cb v) (cb' v)) by (intros; apply Hcb).
  apply bind_ext_r. intros _ s'. apply IH.
Qed.

Lemma forEach_ext arr (cb cb' : value → M ()) s :
  (∀ v s', cb v s' = cb' v s') → forEach arr cb s = forEach arr cb' s.
Proof.
  intros Hcb. unfold forEach. destruct arr as [| | | | |l|]; try done.
  destruct (heap s !! l) as [[fs|es]|]; try done. by apply forEach_from_ext.
Qed.

Lemma shown_true h v : shown h true v = elements_of h v.
Proof. apply shown_flag. Qed.

Lemma fromConnection_not_false v dataSource connection countActiveConnections s :
  not_false v = true →
  fromConnection dataSource connection v countActiveConnections s
  = fromConnection dataSource connection (VBool true) countActiveConnections s.
Proof. intros Hv. unfold fromConnection. by rewrite Hv. Qed.

Lemma fromConnectionGroup_not_false v (fuel : nat) :
  not_false v = true →
  ∀ dataSource connectionGroup includeSharingProfiles countActiveConnections
    countActiveConnectionGroups s,
  fromConnectionGroup fuel dataSource connectionGroup v includeSharingProfiles
    countActiveConnections countActiveConnectionGroups s
  = fromConnectionGroup fuel dataSource connectionGroup (VBool true)
      includeSharingProfiles countActiveConnections countActiveConnectionGroups s.
Proof.
  intros Hv. induction fuel as [|fuel IH]; intros ds g isp cac cacg s; [done |].
  cbn [fromConnectionGroup]. rewrite Hv. cbn [not_false].
  apply bind_ext_r. intros children s1.
  apply bind_ext_r. intros _ s2.
  apply bind_ext_l. intros s3.
  apply bind_ext_r. intros cg s4.
  destruct (truthy cg); [| done].
  apply forEach_ext. intros child s5.
  apply bind_ext_l. intros s6. apply IH.
Qed.

(** C10.  The flags are tested with [!== false].  For every value [v]
    other than [false] — [undefined], [null], [0] and the empty string
    among them — [fromConnection] with [includeSharingProfiles = v] does
    exactly what it does with [true]: it returns an item with
    [expandable = true] whose children are built from all the sharing
    profiles; and [fromConnectionGroup] with [includeConnections = v] does
    exactly what it does with [true]: the children of the item start with
    the items built from all the child connections. *)
Theorem C10_only_false_excludes (v : value) :
  not_false v = true →
  (∀ dataSource connection countActiveConnections s,
     fromConnection dataSource connection v countActiveConnections s
     = fromConnection dataSource connection (VBool true) countActiveConnections s) ∧
  (∀ fuel dataSource connectionGroup includeSharingProfiles countActiveConnections
     countActiveConnectionGroups s,
     fromConnectionGroup fuel dataSource connectionGroup v includeSharingProfiles
       countActiveConnections countActiveConnectionGroups s
     = fromConnectionGroup fuel dataSource connectionGroup (VBool true)
         includeSharingProfiles countActiveConnections countActiveConnectionGroups s) ∧
  (∀ dataSource connection countActiveConnections s,
     connection_ok (heap s) v connection = true →
     ∃ item s' kids,
       fromConnection dataSource connection v countActiveConnections s = (Ok item, s') ∧
       field (heap s') item "expandable" = VBool true ∧
       is_array (heap s') (field (heap s') item "children") kids ∧
       Forall2 (fun kid p => item_has (heap s') kid (profile_view (heap s) dataSource p))
         kids (elements_of (heap s) (field (heap s) connection "sharingProfiles"))) ∧
  (∀ (d fuel : nat) dataSource connectionGroup includeSharingProfiles
     countActiveConnections countActiveConnectionGroups s,
     (d ≤ fuel)%nat →
     group_ok d (heap s) v includeSharingProfiles connectionGroup = true →
     ∃ item s' ckids gkids,
       fromConnectionGroup fuel dataSource connectionGroup v includeSharingProfiles
         countActiveConnections countActiveConnectionGroups s = (Ok item, s') ∧
       is_array (heap s') (field (heap s') item "children") (ckids ++ gkids) ∧
       Forall2 (fun kid p => item_has (heap s') kid
                  (connection_view (heap s) dataSource p includeSharingProfiles
                     countActiveConnections))
         ckids (elements_of (heap s) (field (heap s) connectionGroup "childConnections"))).
Proof.
  intros Hv. repeat apply conj.
  - intros. by apply fromConnection_not_false.
  - intros. by apply fromConnectionGroup_not_false.
  - intros ds conn cac s Hok.
    destruct (run_state _ s _ (fromConnection_spec ds conn v cac (heap s) (console s) Hok))
      as (item & s' & Hrun & Hsub & Hc & ch & kids & Hitem & Hch & Hkids).
    rewrite Hv, shown_true in Hkids.
    exists item, s', kids. repeat split; [done | | | done].
    + assert (Hexp : field (heap s') item "expandable" = VBool (not_false v)).
      { apply (item_has_field _ _ _ _ _ Hitem). in_view. }
      by rewrite Hv in Hexp.
    + by rewrite (item_has_field _ _ _ "children" ch Hitem) by left.
  - intros d fuel ds g isp cac cacg s Hd Hok.
    destruct (run_state _ s _ (fromConnectionGroup_spec fuel d ds g v isp cac cacg
      (heap s) (console s) Hd Hok))
      as (item & s' & Hrun & Hsub & Hc & ch & ckids & gkids & Hitem & Hch & Hck & _).
    rewrite Hv, shown_true in Hck.
    exists item, s', ckids, gkids. repeat split; [done | | done].
    by rewrite (item_has_field _ _ _ "children" ch Hitem) by left.
Qed.

(** ** Further properties of the constructor and the builders *)

(** X1.  The constructor always returns a new object.  It holds the
    template's [dataSource], [identifier], [name], [protocol], [type],
    [expandable], [balancing], [expanded] and [wrappedItem] as they are
    (a custom [type] included); [getActiveConnections],
    [getClientIdentifier] and [weight] are the template's when these are
    truthy and the default function, the default function and [0]
    otherwise; a truthy [children] is stored as it is, the same array as
    the template's and not a copy. *)
Theorem X1_constructor_contract (template : value) (s : state) :
  live (heap s) template = true →
  ∃ l s',
    GroupListItem_new template s = (Ok (VRef l), s') ∧
    heap s !! l = None ∧
    Forall (fun k => field (heap s') (VRef l) k = template_field (heap s) template k)
      copied_properties ∧
    field (heap s') (VRef l) "getActiveConnections"
    = dflt (template_field (heap s) template "getActiveConnections")
        (VFun FDefaultActiveConnections) ∧
    field (heap s') (VRef l) "getClientIdentifier"
    = dflt (template_field (heap s) template "getClientIdentifier")
        (VFun FDefaultClientIdentifier) ∧
    field (heap s') (VRef l) "weight"
    = dflt (template_field (heap s) template "weight") (VNum 0) ∧
    (truthy (template_field (heap s) template "children") = true →
     field (heap s') (VRef l) "children" = template_field (heap s) template "children").
Proof.
  intros Hlive.
  destruct (run_state _ s _ (GroupListItem_new_spec template (heap s) (console s) Hlive))
    as (item & s' & Hrun & l & ch & -> & Hc & Hsub & Hl & Hobj & Hch).
  exists l, s'. split; [done |]. split; [done |].
  assert (Hfield : ∀ k, field (heap s') (VRef l) k
    = default VUndefined (item_fields (template_field (heap s) template) ch !! k)).
  { intros k. simpl. by rewrite Hobj. }
  repeat apply conj.
  - unfold copied_properties. repeat constructor; by rewrite Hfield.
  - by rewrite Hfield.
  - by rewrite Hfield.
  - by rewrite Hfield.
  - intros Ht. rewrite Ht in Hch. subst ch. by rewrite Hfield.
Qed.

Lemma quiet_ret {A} (a : A) : quiet (ret a).
Proof. by intros s. Qed.

Lemma quiet_get v k : quiet (get v k).
Proof. intros s. unfold get. by destruct (nullish v). Qed.

Lemma quiet_alloc o : quiet (alloc o).
Proof. by intros s. Qed.

Lemma quiet_bind {A B} (m : M A) (f : A → M B) :
  quiet m → (∀ a, quiet (f a)) → quiet (bind m f).
Proof.
  intros Hm Hf s. unfold bind. specialize (Hm s).
  destruct (m s) as [[a|e|] s1]; simpl in *; [by rewrite Hf | done | done].
Qed.

Lemma quiet_set_prop target k v : quiet (set_prop target k v).
Proof.
  intros s. unfold set_prop. destruct target as [| | | | |l|]; try done.
  by destruct (heap s !! l) as [[fs|es]|].
Qed.

Lemma quiet_push arr v : quiet (push arr v).
Proof.
  intros s. unfold push. destruct arr as [| | | | |l|]; try done.
  by destruct (heap s !! l) as [[fs|es]|].
Qed.

Lemma quiet_forEach_from l callback n :
  (∀ v, quiet (callback v)) → ∀ i, quiet (forEach_from l callback i n).
Proof.
  intros Hcb. induction n as [|n IH]; intros i s; [done |].
  cbn [forEach_from]. destruct (heap s !! l) as [[fs|es]|]; try apply IH.
  destruct (es !! i); [| apply IH].
  by apply (quiet_bind (callback v) (fun _ => forEach_from l callback (S i) n)).
Qed.

Lemma quiet_forEach arr callback :
  (∀ v, quiet (callback v)) → quiet (forEach arr callback).
Proof.
  intros Hcb s. unfold forEach. destruct arr as [| | | | |l|]; try done.
  destruct (heap s !! l) as [[fs|es]|]; try done.
  by apply (quiet_forEach_from l callback (length es) Hcb 0).
Qed.

Lemma quiet_or_else v (e : M value) : quiet e → quiet (or_else v e).
Proof. intros He. unfold or_else. destruct (truthy v); [apply quiet_ret | done]. Qed.

Lemma GroupListItem_new_quiet template : quiet (GroupListItem_new template).
Proof.
  unfold GroupListItem_new, copy_prop.
  repeat first
    [ apply quiet_ret
    | apply quiet_get
    | apply quiet_alloc
    | apply quiet_set_prop
    | apply quiet_or_else
    | apply quiet_bind
    | intros ? ].
Qed.

Lemma fromSharingProfile_quiet dataSource sharingProfile :
  quiet (fromSharingProfile dataSource sharingProfile).
Proof.
  unfold fromSharingProfile.
  do 2 (apply quiet_bind; [apply quiet_get | intros ?]).
  apply quiet_bind; [apply quiet_alloc | intros ?].
  apply GroupListItem_new_quiet.
Qed.

Lemma fromConnection_quiet dataSource connection includeSharingProfiles
    countActiveConnections :
  quiet (fromConnection dataSource connection includeSharingProfiles
           countActiveConnections).
Proof.
  unfold fromConnection.
  apply quiet_bind; [apply quiet_alloc | intros children].
  apply quiet_bind.
  { apply quiet_bind; [apply quiet_get | intros sp].
    destruct (truthy sp && not_false includeSharingProfiles); [| apply quiet_ret].
    apply quiet_forEach. intros child.
    apply quiet_bind; [apply fromSharingProfile_quiet | intros item].
    apply quiet_push. }
  intros _.
  do 3 (apply quiet_bind; [apply quiet_get | intros ?]).
  apply quiet_bind; [apply quiet_alloc | intros ?].
  apply GroupListItem_new_quiet.
Qed.

Lemma fromConnectionGroup_quiet (fuel : nat) : ∀ dataSource connectionGroup
    includeConnections includeSharingProfiles countActiveConnections
    countActiveConnectionGroups,
  quiet (fromConnectionGroup fuel dataSource connectionGroup includeConnections
           includeSharingProfiles countActiveConnections countActiveConnectionGroups).
Proof.
  induction fuel as [|fuel IH]; intros ds g ic isp cac cacg; [by intros s |].
  cbn [fromConnectionGroup].
  apply quiet_bind; [apply quiet_alloc | intros children].
  apply quiet_bind.
  { apply quiet_bind; [apply quiet_get | intros cc].
    destruct (truthy cc && not_false ic); [| apply quiet_ret].
    apply quiet_forEach. intros child.
    apply quiet_bind; [apply fromConnection_quiet | intros item].
    apply quiet_push. }
  intros _.
  apply quiet_bind.
  { apply quiet_bind; [apply quiet_get | intros cg].
    destruct (truthy cg); [| apply quiet_ret].
    apply quiet_forEach. intros child.
    apply quiet_bind; [apply IH | intros item].
    apply quiet_push. }
  intros _.
  do 3 (apply quiet_bind; [apply quiet_get | intros ?]).
  apply quiet_bind; [apply quiet_alloc | intros ?].
  apply GroupListItem_new_quiet.
Qed.

(** X2.  Building writes nothing to the console.  After the constructor
    (any template), after [fromSharingProfile], and after [fromConnection]
    and [fromConnectionGroup] on a connection and a group whose
    collections are arrays at every depth, the console is what it was.
    (The only [console.log] of the file is inside the accessor of the
    group items.) *)
Theorem X2_building_is_quiet (d fuel : nat)
    (template dataSource connection connectionGroup sharingProfile includeConnections
     includeSharingProfiles countActiveConnections countActiveConnectionGroups : value)
    (s : state) :
  connection_ok (heap s) includeSharingProfiles connection = true →
  group_ok d (heap s) includeConnections includeSharingProfiles connectionGroup = true →
  console (GroupListItem_new template s).2 = console s ∧
  console (fromSharingProfile dataSource sharingProfile s).2 = console s ∧
  console (fromConnection dataSource connection includeSharingProfiles
             countActiveConnections s).2 = console s ∧
  console (fromConnectionGroup fuel dataSource connectionGroup includeConnections
             includeSharingProfiles countActiveConnections countActiveConnectionGroups
             s).2 = console s.
Proof.
  intros _ _. repeat apply conj.
  - apply GroupListItem_new_quiet.
  - apply fromSharingProfile_quiet.
  - apply fromConnection_quiet.
  - apply fromConnectionGroup_quiet.
Qed.

(** X3.  The builders read a property of their entity first of all, so a
    [null] or [undefined] entity is a TypeError: in [fromSharingProfile],
    in [fromConnection] (also when [includeSharingProfiles] is [false]) and
    in [fromConnectionGroup]. *)
Theorem X3_nullish_entity_raises (fuel : nat)
    (source dataSource includeConnections includeSharingProfiles
     countActiveConnections countActiveConnectionGroups : value) (s : state) :
  nullish source = true →
  (fromSharingProfile dataSource source s).1 = Throw TypeError ∧
  (fromConnection dataSource source includeSharingProfiles
     countActiveConnections s).1 = Throw TypeError ∧
  (fromConnectionGroup (S fuel) dataSource source includeConnections
     includeSharingProfiles countActiveConnections countActiveConnectionGroups s).1
  = Throw TypeError.
Proof.
  intros Hn. repeat apply conj.
  - unfold fromSharingProfile, bind, get. by rewrite Hn.
  - unfold fromConnection, bind, alloc, get. by rewrite Hn.
  - cbn [fromConnectionGroup]. unfold bind, alloc, get. by rewrite Hn.
Qed.

Lemma bind_get' {B} v k (f : value → M B) s :
  nullish v = false → bind (get v k) f s = f (field (heap s) v k) s.
Proof. intros Hv. unfold bind, get. by rewrite Hv. Qed.

Lemma forEach_not_array (h : gmap loc obj) v callback c :
  array_of h (fun _ => true) v = false →
  forEach v callback (State h c) = (Throw TypeError, State h c).
Proof.
  intros Hv. unfold forEach. destruct v as [| | | | |l|]; try done.
  simpl in *. destruct (h !! l) as [[fs|es]|]; try done.
  assert (Hall : forallb (fun _ : value => true) es = true).
  { clear Hv. induction es as [|e es IH]; [done | exact IH]. }
  congruence.
Qed.

Lemma array_of_insert_fresh (h : gmap loc obj) lc o ok v :
  h !! lc = None → live h v = true →
  array_of (<[lc := o]> h) ok v = array_of h ok v.
Proof.
  intros Hlc Hlive. destruct v as [| | | | |l|]; try done. simpl in *.
  apply bool_decide_eq_true in Hlive as [x Hx].
  rewrite lookup_insert_ne; [done | congruence].
Qed.

(** X4.  A [sharingProfiles] that is present but is not an array (a
    number, a string, a plain object without a [forEach] function of its
    own) is a TypeError in [fromConnection], unless [includeSharingProfiles]
    is [false] (then it is not looked at, see C3). *)
Theorem X4_sharingProfiles_not_array_raises
    (dataSource connection includeSharingProfiles countActiveConnections : value)
    (s : state) :
  entity (heap s) connection = true →
  truthy (field (heap s) connection "sharingProfiles") = true →
  live (heap s) (field (heap s) connection "sharingProfiles") = true →
  array_of (heap s) (fun _ => true) (field (heap s) connection "sharingProfiles") = false →
  is_fun (field (heap s) (field (heap s) connection "sharingProfiles") "forEach") = false →
  not_false includeSharingProfiles = true →
  (fromConnection dataSource connection includeSharingProfiles
     countActiveConnections s).1 = Throw TypeError.
Proof.
  intros He Ht Hlive Harr _ Hflag.
  destruct s as [h c]. cbn [heap] in *.
  pose proof (fresh_loc_None (State h c)) as Hfresh. cbn [heap] in Hfresh.
  pose proof (entity_nullish _ _ He) as Hn. pose proof (entity_live _ _ He) as Hl.
  unfold fromConnection. unfold bind at 1. unfold alloc at 1. cbn [heap console].
  unfold bind at 1. rewrite bind_get' by done. cbn [heap].
  rewrite field_insert_fresh by done. rewrite Ht, Hflag. cbn [andb].
  rewrite forEach_not_array; [done |].
  by rewrite array_of_insert_fresh.
Qed.

(** X5.  A [childConnections] that is present but is not an array (and
    has no [forEach] function of its own) is a TypeError in
    [fromConnectionGroup], unless [includeConnections] is [false]. *)
Theorem X5_childConnections_not_array_raises (fuel : nat)
    (dataSource connectionGroup includeConnections includeSharingProfiles
     countActiveConnections countActiveConnectionGroups : value) (s : state) :
  entity (heap s) connectionGroup = true →
  truthy (field (heap s) connectionGroup "childConnections") = true →
  live (heap s) (field (heap s) connectionGroup "childConnections") = true →
  array_of (heap s) (fun _ => true) (field (heap s) connectionGroup "childConnections")
  = false →
  is_fun (field (heap s) (field (heap s) connectionGroup "childConnections") "forEach")
  = false →
  not_false includeConnections = true →
  (fromConnectionGroup (S fuel) dataSource connectionGroup includeConnections
     includeSharingProfiles countActiveConnections countActiveConnectionGroups s).1
  = Throw TypeError.
Proof.
  intros He Ht Hlive Harr _ Hflag.
  destruct s as [h c]. cbn [heap] in *.
  pose proof (fresh_loc_None (State h c)) as Hfresh. cbn [heap] in Hfresh.
  pose proof (entity_nullish _ _ He) as Hn. pose proof (entity_live _ _ He) as Hl.
  cbn [fromConnectionGroup]. unfold bind at 1. unfold alloc at 1. cbn [heap console].
  unfold bind at 1. rewrite bind_get' by done. cbn [heap].
  rewrite field_insert_fresh by done. rewrite Ht, Hflag. cbn [andb].
  rewrite forEach_not_array; [done |].
  by rewrite array_of_insert_fresh.
Qed.

(** *** Whole trees *)

Lemma is_array_mono (h h' : gmap loc obj) v es :
  is_array h v es → h ⊆ h' → is_array h' v es.
Proof. intros (l & -> & Hl) Hsub. exists l. split; [done |]. by eapply lookup_weaken. Qed.

Lemma item_has_mono (h h' : gmap loc obj) v kvs :
  item_has h v kvs → h ⊆ h' → item_has h' v kvs.
Proof. intros Hv Hsub. eapply item_has_kept; [done | by apply objs_kept_subseteq]. Qed.

Lemma difference_mono_l (m m' h : gmap loc obj) : m ⊆ m' → m ∖ h ⊆ m' ∖ h.
Proof.
  intros Hsub. apply map_subseteq_spec. intros i x.
  rewrite !lookup_difference_Some. intros [Hm Hh]. split; [| done].
  by eapply lookup_weaken.
Qed.

Lemma difference_new_part (h hs hs' : gmap loc obj) lc x :
  h ⊆ hs → hs !! lc = Some x → hs' ∖ hs ⊆ delete lc hs' ∖ h.
Proof.
  intros Hsub Hlc. apply map_subseteq_spec. intros i y.
  rewrite !lookup_difference_Some. intros [Hi Hnew]. split.
  - rewrite lookup_delete_ne; [done | congruence].
  - by eapply lookup_weaken_None.
Qed.

Lemma Forall2_impl_Forall_r {A B} (R R' : A → B → Prop) (P : B → Prop) l k :
  Forall2 R l k → Forall P k → (∀ x y, P y → R x y → R' x y) → Forall2 R' l k.
Proof.
  intros HR. induction HR as [|x y l k Hxy HR IH]; intros HP Himpl; [constructor |].
  inversion HP; subst. constructor; eauto.
Qed.

Lemma elements_of_weaken (h h' : gmap loc obj) ok v :
  array_of h ok v = true → h ⊆ h' → elements_of h' v = elements_of h v.
Proof.
  intros Ha Hsub. apply array_of_inv in Ha as (l & es & -> & Hl & Hes).
  simpl. by rewrite (lookup_weaken _ _ _ _ Hl Hsub), Hl.
Qed.

Lemma shown_weaken (h h' : gmap loc obj) ok (flag : bool) v :
  negb (truthy v && flag) || array_of h ok v = true → h ⊆ h' →
  shown h' flag v = shown h flag v.
Proof.
  intros Hok Hsub. unfold shown. destruct (truthy v && flag); [| done].
  cbn [negb orb] in Hok. by eapply elements_of_weaken.
Qed.

Lemma shown_Forall (h : gmap loc obj) (ok : value → bool) (flag : bool) v :
  negb (truthy v && flag) || array_of h ok v = true →
  Forall (fun x => ok x = true) (shown h flag v).
Proof.
  intros Hok. unfold shown. destruct (truthy v && flag); [| constructor].
  cbn [negb orb] in Hok. apply array_of_inv in Hok as (l & es & -> & Hl & Hes). simpl. by rewrite Hl.
Qed.

Lemma profile_tree_mono (h0 hn hn' : gmap loc obj) ds item p :
  profile_tree h0 hn ds item p → hn ⊆ hn' → profile_tree h0 hn' ds item p.
Proof.
  intros (ch & Hitem & Harr) Hsub. exists ch.
  split; [by eapply item_has_mono | by eapply is_array_mono].
Qed.

Lemma connection_tree_mono (h0 hn hn' : gmap loc obj) ds isp cac item c :
  connection_tree h0 hn ds isp cac item c → hn ⊆ hn' →
  connection_tree h0 hn' ds isp cac item c.
Proof.
  intros (ch & kids & Hitem & Harr & Hkids) Hsub. exists ch, kids.
  repeat split; [by eapply item_has_mono | by eapply is_array_mono |].
  eapply Forall2_impl; [exact Hkids |]. intros kid p Hkid.
  by eapply profile_tree_mono.
Qed.

Lemma group_tree_mono (d : nat) : ∀ (h0 hn hn' : gmap loc obj) ds ic isp cac cacg item g,
  group_tree d h0 hn ds ic isp cac cacg item g → hn ⊆ hn' →
  group_tree d h0 hn' ds ic isp cac cacg item g.
Proof.
  induction d as [|d IH]; intros h0 hn hn' ds ic isp cac cacg item g; [done |].
  intros (ch & ckids & gkids & Hitem & Harr & Hck & Hgk) Hsub.
  exists ch, ckids, gkids.
  repeat split; [by eapply item_has_mono | by eapply is_array_mono | |].
  - eapply Forall2_impl; [exact Hck |]. intros kid p Hkid.
    by eapply connection_tree_mono.
  - eapply Forall2_impl; [exact Hgk |]. intros kid p Hkid. by eapply IH.
Qed.

Lemma profile_tree_source (h0 hs hn : gmap loc obj) ds item p :
  entity h0 p = true → h0 ⊆ hs →
  profile_tree hs hn ds item p → profile_tree h0 hn ds item p.
Proof.
  intros He Hsub (ch & Hitem & Harr). exists ch. split; [| done].
  by rewrite (profile_view_weaken h0 hs) in Hitem by (done || by apply entity_live).
Qed.

Lemma connection_tree_source (h0 hs hn : gmap loc obj) ds isp cac item c :
  connection_ok h0 isp c = true → h0 ⊆ hs →
  connection_tree hs hn ds isp cac item c → connection_tree h0 hn ds isp cac item c.
Proof.
  intros Hok Hsub (ch & kids & Hitem & Harr & Hkids).
  apply andb_true_iff in Hok as [He Hsp]. pose proof (entity_live _ _ He) as Hlive.
  exists ch, kids. repeat split; [| done |].
  - by rewrite (connection_view_weaken h0 hs) in Hitem.
  - rewrite (field_weaken h0 hs) in Hkids by done.
    rewrite (shown_weaken h0 hs (entity h0)) in Hkids by done.
    eapply Forall2_impl_Forall_r; [exact Hkids | by apply shown_Forall |].
    intros kid p Hp Hkid. by eapply profile_tree_source.
Qed.

Lemma group_tree_source (d : nat) : ∀ (h0 hs hn : gmap loc obj) ds ic isp cac cacg item g,
  group_ok d h0 ic isp g = true → h0 ⊆ hs →
  group_tree d hs hn ds ic isp cac cacg item g →
  group_tree d h0 hn ds ic isp cac cacg item g.
Proof.
  induction d as [|d IH]; intros h0 hs hn ds ic isp cac cacg item g; [done |].
  intros Hok Hsub (ch & ckids & gkids & Hitem & Harr & Hck & Hgk).
  cbn [group_ok] in Hok. apply andb_true_iff in Hok as [Hok Hcg].
  apply andb_true_iff in Hok as [He Hcc]. pose proof (entity_live _ _ He) as Hlive.
  exists ch, ckids, gkids. repeat split; [| done | |].
  - by rewrite (group_view_weaken h0 hs) in Hitem.
  - rewrite (field_weaken h0 hs) in Hck by done.
    rewrite (shown_weaken h0 hs (connection_ok h0 isp)) in Hck by done.
    eapply Forall2_impl_Forall_r; [exact Hck | by apply shown_Forall |].
    intros kid p Hp Hkid. by eapply connection_tree_source.
  - rewrite (field_weaken h0 hs) in Hgk by done.
    assert (Hcg' : negb (truthy (field h0 g "childConnectionGroups") && true)
                   || array_of h0 (group_ok d h0 ic isp)
                        (field h0 g "childConnectionGroups") = true).
    { by rewrite andb_true_r. }
    rewrite (shown_weaken h0 hs (group_ok d h0 ic isp)) in Hgk by done.
    eapply Forall2_impl_Forall_r; [exact Hgk | by apply shown_Forall |].
    intros kid p Hp Hkid. by eapply IH.
Qed.

(** The loop of the builders again, now keeping track of where the items
    are: [R] speaks about the part of the heap a call has added. *)
Lemma run_push_loop_fresh (build : value → M value)
    (R : gmap loc obj → value → value → Prop)
    (ok : value → bool) (h : gmap loc obj) c lc coll (b : bool) kids0 s1 :
  h !! lc = None → h ⊆ heap s1 → console s1 = c →
  heap s1 !! lc = Some (OArray kids0) →
  (b = true → array_of h ok coll = true) →
  (∀ p s, ok p = true → h ⊆ heap s → console s = c →
     run (build p) s (fun node s' =>
       heap s ⊆ heap s' ∧ console s' = c ∧ R (heap s' ∖ heap s) node p)) →
  (∀ hn hn' kid p, R hn kid p → hn ⊆ hn' → R hn' kid p) →
  run (if b then forEach coll (fun child =>
                   let* item := build child in push (VRef lc) item)
       else ret ()) s1
    (fun _ s2 => h ⊆ heap s2 ∧ console s2 = c ∧
       delete lc (heap s1) ⊆ delete lc (heap s2) ∧
       ∃ kids, heap s2 !! lc = Some (OArray (kids0 ++ kids)) ∧
               Forall2 (R (delete lc (heap s2) ∖ h)) kids
                 (if b then elements_of h coll else [])).
Proof.
  intros Hlc Hsub Hc Hkids0 Harr Hbuild Hmono. destruct b.
  2:{ apply run_ret. repeat split; [done.. |].
      exists []. by rewrite app_nil_r. }
  destruct (array_of_inv _ _ _ (Harr eq_refl)) as (la & es & -> & Hla & Hes).
  simpl. rewrite Hla.
  apply (run_forEach la es); [by eapply lookup_weaken |].
  set (I := fun (j : nat) (s : state) =>
    h ⊆ heap s ∧ console s = c ∧ delete lc (heap s1) ⊆ delete lc (heap s) ∧
    ∃ kids, heap s !! lc = Some (OArray (kids0 ++ kids)) ∧
            Forall2 (R (delete lc (heap s) ∖ h)) kids (take j es)).
  eapply run_mono.
  - apply (run_forEach_from la es _ I).
    + intros j s (Hs & _). by eapply lookup_weaken.
    + intros j v s Hv (Hs & Hcs & Hk & kids & Hl & HR).
      apply run_bind. eapply run_mono.
      { apply Hbuild; [| done | done].
        rewrite Forall_forall in Hes. eapply Hes, list_elem_of_lookup_2, Hv. }
      intros node s' (Hs' & Hcs' & Hnode).
      apply (run_push lc (kids0 ++ kids)); [by eapply lookup_weaken |].
      assert (Hdel : delete lc (<[lc := OArray ((kids0 ++ kids) ++ [node])]> (heap s'))
                     = delete lc (heap s')) by apply delete_insert_eq.
      repeat split; cbn [heap console].
      * apply insert_subseteq_r; [done | by etrans].
      * done.
      * rewrite Hdel. etrans; [exact Hk | by apply delete_mono].
      * exists (kids ++ [node]). rewrite lookup_insert_eq.
        split; [by rewrite <- app_assoc |].
        rewrite (take_S_r _ _ _ Hv), Hdel. apply Forall2_app.
        -- eapply Forall2_impl; [exact HR |]. intros kid p Hkid.
           eapply Hmono; [exact Hkid |]. by apply difference_mono_l, delete_mono.
        -- constructor; [| constructor].
           eapply Hmono; [exact Hnode |]. by eapply difference_new_part.
    + done.
    + repeat split; [done.. |].
      exists []. rewrite app_nil_r. split; [done | constructor].
  - intros u s' (Hs & Hcs & Hk & kids & Hl & HR).
    repeat split; [done.. |]. exists kids. split; [done |].
    by rewrite firstn_all in HR.
Qed.

Lemma fromSharingProfile_tree dataSource sharingProfile h c :
  entity h sharingProfile = true →
  run (fromSharingProfile dataSource sharingProfile) (State h c) (fun v s' =>
    h ⊆ heap s' ∧ console s' = c ∧
    profile_tree h (heap s' ∖ h) dataSource v sharingProfile).
Proof.
  intros He. pose proof (entity_nullish _ _ He) as Hn.
  unfold fromSharingProfile.
  do 2 (apply run_bind, run_get; [done |]).
  eapply run_mono; [apply run_new_lit |]. simpl.
  intros v s' (l & ch & -> & Hc & Hsub & Hl & Hobj & lc & -> & Hlc & Harr).
  repeat split; [done.. |]. exists (VRef lc). split.
  - eapply item_has_intro; [by apply lookup_difference_Some |].
    repeat constructor; reflexivity.
  - exists lc. split; [done |]. by apply lookup_difference_Some.
Qed.

Lemma fromConnection_tree dataSource connection includeSharingProfiles
    countActiveConnections h c :
  connection_ok h includeSharingProfiles connection = true →
  run (fromConnection dataSource connection includeSharingProfiles
         countActiveConnections) (State h c) (fun v s' =>
    h ⊆ heap s' ∧ console s' = c ∧
    connection_tree h (heap s' ∖ h) dataSource includeSharingProfiles
      countActiveConnections v connection).
Proof.
  intros Hok. apply andb_true_iff in Hok as [He Hsp].
  pose proof (entity_nullish _ _ He) as Hn. pose proof (entity_live _ _ He) as Hlive.
  unfold fromConnection.
  apply run_bind, run_alloc. intros lc Hlc.
  apply run_bind. eapply run_mono.
  { apply run_bind, run_get_under; [done.. |].
    apply (run_push_loop_fresh (fromSharingProfile dataSource)
             (fun hn kid p => profile_tree h hn dataSource kid p)
             (entity h) h c lc _ _ []).
    - done.
    - by apply insert_subseteq.
    - done.
    - apply lookup_insert_eq.
    - by apply orb_negb_true.
    - intros p [hs cs] Hp Hs Hcs. cbn [heap console] in *.
      eapply run_mono; [apply fromSharingProfile_tree; by eapply entity_weaken |].
      intros node s' (Hsub & Hc' & Htree).
      repeat split; [done | congruence |]. by eapply profile_tree_source.
    - intros hn hn' kid p. apply profile_tree_mono. }
  intros u [h2 c2] (Hs2 & Hc2 & Hk & kids & Hkids & HR). cbn [heap console] in *.
  do 3 (apply run_bind, run_get; [done |]). cbn [heap].
  rewrite !(field_weaken h h2) by done.
  eapply run_mono; [apply run_new_lit |].
  intros v s' (l & ch & -> & Hc' & Hsub' & Hl & Hobj & Hch).
  change (ch = VRef lc) in Hch. subst ch.
  assert (Hsub : h ⊆ heap s') by (by etrans).
  repeat split; [done | congruence |].
  exists (VRef lc), kids. repeat split.
  - eapply item_has_intro.
    + apply lookup_difference_Some. split; [exact Hobj |].
      by eapply lookup_weaken_None.
    + repeat constructor; reflexivity.
  - exists lc. split; [done |]. apply lookup_difference_Some.
    split; [by eapply lookup_weaken | done].
  - eapply Forall2_impl; [exact HR |]. intros kid p Hkid.
    eapply profile_tree_mono; [exact Hkid |].
    apply difference_mono_l. etrans; [apply delete_subseteq | done].
Qed.

Lemma fromConnectionGroup_tree (fuel : nat) : ∀ (d : nat) dataSource connectionGroup
    includeConnections includeSharingProfiles countActiveConnections
    countActiveConnectionGroups h c,
  (d ≤ fuel)%nat →
  group_ok d h includeConnections includeSharingProfiles connectionGroup = true →
  run (fromConnectionGroup fuel dataSource connectionGroup includeConnections
         includeSharingProfiles countActiveConnections countActiveConnectionGroups)
    (State h c) (fun v s' =>
    h ⊆ heap s' ∧ console s' = c ∧
    group_tree d h (heap s' ∖ h) dataSource includeConnections includeSharingProfiles
      countActiveConnections countActiveConnectionGroups v connectionGroup).
Proof.
  induction fuel as [|fuel IH]; intros d ds g ic isp cac cacg h c Hd Hok.
  { assert (d = 0) as -> by lia. done. }
  destruct d as [|d]; [done |].
  pose proof Hok as Hok0.
  cbn [group_ok] in Hok. apply andb_true_iff in Hok as [Hok Hcg].
  apply andb_true_iff in Hok as [He Hcc].
  pose proof (entity_nullish _ _ He) as Hn. pose proof (entity_live _ _ He) as Hlive.
  cbn [fromConnectionGroup].
  apply run_bind, run_alloc. intros lc Hlc.
  apply run_bind. eapply run_mono.
  { apply run_bind, run_get_under; [done.. |].
    apply (run_push_loop_fresh (fun child => fromConnection ds child isp cac)
             (fun hn kid p => connection_tree h hn ds isp cac kid p)
             (connection_ok h isp) h c lc _ _ []).
    - done.
    - by apply insert_subseteq.
    - done.
    - apply lookup_insert_eq.
    - by apply orb_negb_true.
    - intros p [hs cs] Hp Hs Hcs. cbn [heap console] in *.
      eapply run_mono; [apply fromConnection_tree; by eapply connection_ok_weaken |].
      intros node s' (Hsub & Hc' & Htree).
      repeat split; [done | congruence |]. by eapply connection_tree_source.
    - intros hn hn' kid p. apply connection_tree_mono. }
  intros u s1 (Hs1 & Hc1 & Hk1 & ckids & Hckids & HRc). cbn [heap console] in *.
  apply run_bind. eapply run_mono.
  { apply run_bind, run_get; [done |].
    rewrite (field_weaken h (heap s1)) by done.
    apply (run_push_loop_fresh
             (fun child => fromConnectionGroup fuel ds child ic isp cac cacg)
             (fun hn kid p => group_tree d h hn ds ic isp cac cacg kid p)
             (group_ok d h ic isp) h c lc _ _ ([] ++ ckids)).
    - done.
    - done.
    - done.
    - done.
    - by apply orb_negb_true.
    - intros p [hs cs] Hp Hs Hcs. cbn [heap console] in *.
      eapply run_mono.
      { apply (IH d); [lia |]. by eapply group_ok_weaken. }
      intros node s' (Hsub & Hc' & Htree).
      repeat split; [done | congruence |]. by eapply group_tree_source.
    - intros hn hn' kid p. apply group_tree_mono. }
  intros u' [h2 c2] (Hs2 & Hc2 & Hk2 & gkids & Hkids & HRg). cbn [heap console] in *.
  do 3 (apply run_bind, run_get; [done |]). cbn [heap].
  rewrite !(field_weaken h h2) by done.
  eapply run_mono; [apply run_new_lit |].
  intros v s' (l & ch & -> & Hc' & Hsub' & Hl & Hobj & Hch).
  change (ch = VRef lc) in Hch. subst ch.
  assert (Hsub : h ⊆ heap s') by (by etrans).
  assert (Hnew : delete lc h2 ∖ h ⊆ heap s' ∖ h).
  { apply difference_mono_l. etrans; [apply delete_subseteq | done]. }
  repeat split; [done | congruence |].
  exists (VRef lc), ckids, gkids. repeat split.
  - eapply item_has_intro.
    + apply lookup_difference_Some. split; [exact Hobj |].
      by eapply lookup_weaken_None.
    + repeat constructor; reflexivity.
  - exists lc. split; [done |]. apply lookup_difference_Some.
    split; [by eapply lookup_weaken | done].
  - eapply Forall2_impl; [exact HRc |]. intros kid p Hkid.
    eapply connection_tree_mono; [exact Hkid |].
    etrans; [| exact Hnew]. by apply difference_mono_l.
  - unfold shown. rewrite andb_true_r.
    eapply Forall2_impl; [exact HRg |]. intros kid p Hkid.
    by eapply group_tree_mono.
Qed.

(** X11.  The item tree mirrors the source tree at every depth.  The item
    [fromConnectionGroup] returns holds the group's data; its children
    are, in order, the trees of the child connections (left out when
    [includeConnections] is [false]), each with the items of its sharing
    profiles as children (left out when [includeSharingProfiles] is
    [false]), and then the trees of the child groups, built in the same
    way with the same flags and counters. *)
Theorem X11_tree_mirrors_source (d fuel : nat)
    (dataSource connectionGroup includeConnections includeSharingProfiles
     countActiveConnections countActiveConnectionGroups : value) (s : state) :
  (d ≤ fuel)%nat →
  group_ok d (heap s) includeConnections includeSharingProfiles connectionGroup = true →
  ∃ item s',
    fromConnectionGroup fuel dataSource connectionGroup includeConnections
      includeSharingProfiles countActiveConnections countActiveConnectionGroups s
    = (Ok item, s') ∧
    group_tree d (heap s) (heap s') dataSource includeConnections
      includeSharingProfiles countActiveConnections countActiveConnectionGroups
      item connectionGroup.
Proof.
  intros Hd Hok.
  destruct (run_state _ s _ (fromConnectionGroup_tree fuel d dataSource connectionGroup
    includeConnections includeSharingProfiles countActiveConnections
    countActiveConnectionGroups (heap s) (console s) Hd Hok))
    as (item & s' & Hrun & Hsub & Hc & Htree).
  exists item, s'. split; [done |].
  eapply group_tree_mono; [exact Htree |]. by apply map_subseteq_difference_l.
Qed.

(** X12.  Everything a builder returns is new.  The whole item tree (every
    item and every [children] array, at every depth) is made of objects at
    locations that were free when the builder was called: no item or array
    is shared with the source heap or with a tree built earlier; the
    entities are reached only through [wrappedItem] and the accessors. *)
Theorem X12_tree_is_new (d fuel : nat)
    (dataSource sharingProfile connection connectionGroup includeConnections
     includeSharingProfiles countActiveConnections countActiveConnectionGroups : value)
    (s : state) :
  entity (heap s) sharingProfile = true →
  connection_ok (heap s) includeSharingProfiles connection = true →
  (d ≤ fuel)%nat →
  group_ok d (heap s) includeConnections includeSharingProfiles connectionGroup = true →
  (∃ item s',
     fromSharingProfile dataSource sharingProfile s = (Ok item, s') ∧
     profile_tree (heap s) (heap s' ∖ heap s) dataSource item sharingProfile) ∧
  (∃ item s',
     fromConnection dataSource connection includeSharingProfiles
       countActiveConnections s = (Ok item, s') ∧
     connection_tree (heap s) (heap s' ∖ heap s) dataSource includeSharingProfiles
       countActiveConnections item connection) ∧
  (∃ item s',
     fromConnectionGroup fuel dataSource connectionGroup includeConnections
       includeSharingProfiles countActiveConnections countActiveConnectionGroups s
     = (Ok item, s') ∧
     group_tree d (heap s) (heap s' ∖ heap s) dataSource includeConnections
       includeSharingProfiles countActiveConnections countActiveConnectionGroups
       item connectionGroup).
Proof.
  intros He Hcok Hd Hgok. repeat apply conj.
  - destruct (run_state _ s _ (fromSharingProfile_tree dataSource sharingProfile
      (heap s) (console s) He)) as (item & s' & Hrun & Hsub & Hc & Htree).
    by exists item, s'.
  - destruct (run_state _ s _ (fromConnection_tree dataSource connection
      includeSharingProfiles countActiveConnections (heap s) (console s) Hcok))
      as (item & s' & Hrun & Hsub & Hc & Htree).
    by exists item, s'.
  - destruct (run_state _ s _ (fromConnectionGroup_tree fuel d dataSource
      connectionGroup includeConnections includeSharingProfiles countActiveConnections
      countActiveConnectionGroups (heap s) (console s) Hd Hgok))
      as (item & s' & Hrun & Hsub & Hc & Htree).
    by exists item, s'.
Qed.

(** *** The accessors of the items *)

Section Accessors.

Variable ClientIdentifier_toString : value → M value.
Variable ClientIdentifier_Types_CONNECTION : value.
Variable ClientIdentifier_Types_CONNECTION_GROUP : value.
Variable extern : nat → value → list value → M value.

#[local] Abbreviation invoke := (invoke ClientIdentifier_toString ClientIdentifier_Types_CONNECTION
                      ClientIdentifier_Types_CONNECTION_GROUP extern).
#[local] Abbreviation call_method := (call_method ClientIdentifier_toString
                           ClientIdentifier_Types_CONNECTION
                           ClientIdentifier_Types_CONNECTION_GROUP extern).

Lemma bind_get {B} v k (f : value → M B) s :
  nullish v = false → bind (get v k) f s = f (field (heap s) v k) s.
Proof. intros Hv. unfold bind, get. by rewrite Hv. Qed.

Lemma call_method_fun l k args f s :
  field (heap s) (VRef l) k = VFun f →
  call_method (VRef l) k args s = invoke f (VRef l) args s.
Proof. intros Hf. unfold call_method, bind, get. simpl nullish. cbv iota. by rewrite Hf. Qed.

(** C6.  For the items [fromConnection] and [fromConnectionGroup] return,
    in any later state in which the item still carries its accessor: when a
    counter function was supplied, [getActiveConnections()] is the call of
    that counter on the data source identifier and the source entity,
    whatever [activeConnections] the entity holds; when no counter was
    supplied, it returns the entity's [activeConnections] as the heap holds
    it at the time of the call.  (The group accessor writes its line to the
    console first.) *)
Theorem C6_active_connections (d fuel : nat)
    (dataSource connection connectionGroup includeConnections includeSharingProfiles
     countActiveConnections countActiveConnectionGroups : value) (s : state) :
  connection_ok (heap s) includeSharingProfiles connection = true →
  (d ≤ fuel)%nat →
  group_ok d (heap s) includeConnections includeSharingProfiles connectionGroup = true →
  (∃ item s1,
     fromConnection dataSource connection includeSharingProfiles
       countActiveConnections s = (Ok item, s1) ∧
     ∀ s2,
       field (heap s2) item "getActiveConnections"
       = field (heap s1) item "getActiveConnections" →
       (∀ f, countActiveConnections = VFun f →
          call_method item "getActiveConnections" [] s2
          = invoke f VUndefined [dataSource; connection] s2) ∧
       (truthy countActiveConnections = false →
          call_method item "getActiveConnections" [] s2
          = (Ok (field (heap s2) connection "activeConnections"), s2))) ∧
  (∃ item s1,
     fromConnectionGroup fuel dataSource connectionGroup includeConnections
       includeSharingProfiles countActiveConnections countActiveConnectionGroups s
     = (Ok item, s1) ∧
     ∀ s2,
       field (heap s2) item "getActiveConnections"
       = field (heap s1) item "getActiveConnections" →
       (∀ f, countActiveConnectionGroups = VFun f →
          call_method item "getActiveConnections" [] s2
          = invoke f VUndefined [dataSource; connectionGroup] (logged s2)) ∧
       (truthy countActiveConnectionGroups = false →
          call_method item "getActiveConnections" [] s2
          = (Ok (field (heap s2) connectionGroup "activeConnections"), logged s2))).
Proof.
  intros Hcok Hd Hgok. split.
  - destruct (run_state _ s _ (fromConnection_spec dataSource connection
      includeSharingProfiles countActiveConnections (heap s) (console s) Hcok))
      as (item & s1 & Hrun & Hsub & Hc & ch & kids & Hitem & _).
    exists item, s1. split; [done |]. intros s2 Hsame.
    assert (Hacc : field (heap s1) item "getActiveConnections"
                   = VFun (FConnectionActiveConnections countActiveConnections
                             dataSource connection)).
    { apply (item_has_field _ _ _ _ _ Hitem). in_view. }
    rewrite Hacc in Hsame. destruct Hitem as (l & fs & -> & _).
    rewrite (call_method_fun _ _ _ _ _ Hsame).
    apply andb_true_iff in Hcok as [He _]. apply entity_nullish in He.
    split.
    + by intros f ->.
    + intros Hfalsy. cbn [invoke]. rewrite Hfalsy. unfold get. by rewrite He.
  - destruct (run_state _ s _ (fromConnectionGroup_spec fuel d dataSource
      connectionGroup includeConnections includeSharingProfiles countActiveConnections
      countActiveConnectionGroups (heap s) (console s) Hd Hgok))
      as (item & s1 & Hrun & Hsub & Hc & ch & ckids & gkids & Hitem & _).
    exists item, s1. split; [done |]. intros s2 Hsame.
    assert (Hacc : field (heap s1) item "getActiveConnections"
                   = VFun (FGroupActiveConnections countActiveConnectionGroups
                             dataSource connectionGroup)).
    { apply (item_has_field _ _ _ _ _ Hitem). in_view. }
    rewrite Hacc in Hsame. destruct Hitem as (l & fs & -> & _).
    rewrite (call_method_fun _ _ _ _ _ Hsame).
    assert (He : nullish connectionGroup = false).
    { destruct d; [done |]. cbn [group_ok] in Hgok.
      apply andb_true_iff in Hgok as [Hgok _]. apply andb_true_iff in Hgok as [He _].
      by apply entity_nullish in He. }
    split.
    + by intros f ->.
    + intros Hfalsy. cbn [invoke]. unfold bind, console_log. rewrite Hfalsy.
      unfold get. by rewrite He.
Qed.

(** C7, as the code has it.  The constructor gives an item the
    [getClientIdentifier] of its template when that is truthy and the
    default accessor otherwise.  In any later state in which the item still
    carries it: with the default accessor (every item [fromSharingProfile]
    returns has it), [getClientIdentifier()] returns [null] and raises
    nothing whenever the item's [type] is neither [connection] nor
    [connection-group]; with a function of the template's own it is the
    call of that function on the item, whatever the item's [type], and
    returns what the function returns; with a truthy value of the
    template's that is not a function it is a TypeError. *)
Theorem C7_default_client_identifier
    (template dataSource sharingProfile : value) (s : state) :
  live (heap s) template = true →
  entity (heap s) sharingProfile = true →
  (∃ item s1,
     GroupListItem_new template s = (Ok item, s1) ∧
     ∀ s2,
       field (heap s2) item "getClientIdentifier"
       = field (heap s1) item "getClientIdentifier" →
       (truthy (template_field (heap s) template "getClientIdentifier") = false →
        is_str (field (heap s2) item "type") GroupListItem_Type.CONNECTION = false →
        is_str (field (heap s2) item "type") GroupListItem_Type.CONNECTION_GROUP = false →
        call_method item "getClientIdentifier" [] s2 = (Ok VNull, s2)) ∧
       (∀ f, template_field (heap s) template "getClientIdentifier" = VFun f →
          call_method item "getClientIdentifier" [] s2 = invoke f item [] s2) ∧
       (truthy (template_field (heap s) template "getClientIdentifier") = true →
        is_fun (template_field (heap s) template "getClientIdentifier") = false →
        call_method item "getClientIdentifier" [] s2 = (Throw TypeError, s2))) ∧
  (∃ item s1,
     fromSharingProfile dataSource sharingProfile s = (Ok item, s1) ∧
     field (heap s1) item "type" = VStr GroupListItem_Type.SHARING_PROFILE ∧
     call_method item "getClientIdentifier" [] s1 = (Ok VNull, s1)).
Proof.
  intros Hlive He.
  assert (Hdefault : ∀ l s2,
    field (heap s2) (VRef l) "getClientIdentifier" = VFun FDefaultClientIdentifier →
    is_str (field (heap s2) (VRef l) "type") GroupListItem_Type.CONNECTION = false →
    is_str (field (heap s2) (VRef l) "type") GroupListItem_Type.CONNECTION_GROUP = false →
    call_method (VRef l) "getClientIdentifier" [] s2 = (Ok VNull, s2)).
  { intros l s2 Hacc H1 H2. rewrite (call_method_fun _ _ _ _ _ Hacc).
    cbn [invoke]. rewrite bind_get by done. rewrite H1.
    rewrite bind_get by done. by rewrite H2. }
  split.
  - destruct (run_state _ s _ (GroupListItem_new_spec template (heap s) (console s) Hlive))
      as (item & s1 & Hrun & l & ch & -> & Hc & Hsub & Hl & Hobj & _).
    exists (VRef l), s1. split; [done |]. intros s2 Hsame.
    assert (Hacc : field (heap s2) (VRef l) "getClientIdentifier"
                   = dflt (template_field (heap s) template "getClientIdentifier")
                       (VFun FDefaultClientIdentifier)).
    { rewrite Hsame. simpl. by rewrite Hobj. }
    repeat apply conj.
    + intros Hnone H1 H2. apply Hdefault; [| done | done].
      rewrite Hacc. unfold dflt. by rewrite Hnone.
    + intros f Hf. apply call_method_fun. rewrite Hacc, Hf. done.
    + intros Ht Hnf. unfold dflt in Hacc. rewrite Ht in Hacc.
      unfold call_method. rewrite bind_get by done. rewrite Hacc.
      by destruct (template_field (heap s) template "getClientIdentifier").
  - destruct (run_state _ s _ (fromSharingProfile_spec dataSource sharingProfile
      (heap s) (console s) He))
      as (item & s1 & Hrun & Hsub & Hc & ch & Hitem & _).
    exists item, s1. split; [done |].
    assert (Hty : field (heap s1) item "type" = VStr GroupListItem_Type.SHARING_PROFILE).
    { apply (item_has_field _ _ _ _ _ Hitem). in_view. }
    assert (Hacc : field (heap s1) item "getClientIdentifier" = VFun FDefaultClientIdentifier).
    { apply (item_has_field _ _ _ _ _ Hitem). in_view. }
    split; [done |]. destruct Hitem as (l & fs & -> & _).
    apply Hdefault; [done | by rewrite Hty | by rewrite Hty].
Qed.

Lemma call_default_active_connections l s :
  field (heap s) (VRef l) "getActiveConnections" = VFun FDefaultActiveConnections →
  call_method (VRef l) "getActiveConnections" [] s = (Ok VNull, s).
Proof. intros Hacc. by rewrite (call_method_fun _ _ _ _ _ Hacc). Qed.

(** X6.  The items of sharing profiles do not count: the counter given to
    [fromConnection] does not reach them (its callback hands it to
    [fromSharingProfile], which has no such parameter), and the
    [getActiveConnections()] of every child of the connection item returns
    [null], as does that of an item [fromSharingProfile] returns. *)
Theorem X6_sharing_profiles_report_null
    (dataSource connection sharingProfile includeSharingProfiles
     countActiveConnections : value) (s : state) :
  connection_ok (heap s) includeSharingProfiles connection = true →
  entity (heap s) sharingProfile = true →
  (∃ item s' kids,
     fromConnection dataSource connection includeSharingProfiles
       countActiveConnections s = (Ok item, s') ∧
     is_array (heap s') (field (heap s') item "children") kids ∧
     length kids
     = length (shown (heap s) (not_false includeSharingProfiles)
                 (field (heap s) connection "sharingProfiles")) ∧
     Forall (fun kid => call_method kid "getActiveConnections" [] s' = (Ok VNull, s'))
       kids) ∧
  (∃ item s',
     fromSharingProfile dataSource sharingProfile s = (Ok item, s') ∧
     call_method item "getActiveConnections" [] s' = (Ok VNull, s')).
Proof.
  intros Hok He. split.
  - destruct (run_state _ s _ (fromConnection_spec dataSource connection
      includeSharingProfiles countActiveConnections (heap s) (console s) Hok))
      as (item & s' & Hrun & Hsub & Hc & ch & kids & Hitem & Hch & Hkids).
    exists item, s', kids. repeat split; [done | | |].
    + by rewrite (item_has_field _ _ _ "children" ch Hitem) by left.
    + by eapply Forall2_length.
    + apply Forall_forall. intros kid Hkid.
      apply list_elem_of_lookup in Hkid as [i Hi].
      destruct (Forall2_lookup_l _ _ _ _ _ Hkids Hi) as (p & _ & Hp).
      assert (Hacc : field (heap s') kid "getActiveConnections"
                     = VFun FDefaultActiveConnections).
      { apply (item_has_field _ _ _ _ _ Hp). in_view. }
      destruct Hp as (l & fs & -> & _). by apply call_default_active_connections.
  - destruct (run_state _ s _ (fromSharingProfile_spec dataSource sharingProfile
      (heap s) (console s) He))
      as (item & s' & Hrun & Hsub & Hc & ch & Hitem & _).
    exists item, s'. split; [done |].
    assert (Hacc : field (heap s') item "getActiveConnections"
                   = VFun FDefaultActiveConnections).
    { apply (item_has_field _ _ _ _ _ Hitem). in_view. }
    destruct Hitem as (l & fs & -> & _). by apply call_default_active_connections.
Qed.

(** X7.  [getClientIdentifier()] of a connection item is the call of
    [ClientIdentifier.toString] on a new object
    [{dataSource, type: ClientIdentifier.Types.CONNECTION, id}], where
    [dataSource] is the builder's argument and [id] is the [identifier] the
    connection had when the item was built: the item holds a copy, so a
    later change of [connection.identifier] does not show (unlike
    [activeConnections], see C6). *)
Theorem X7_connection_client_identifier
    (dataSource connection includeSharingProfiles countActiveConnections : value)
    (s : state) :
  connection_ok (heap s) includeSharingProfiles connection = true →
  ∃ item s1,
    fromConnection dataSource connection includeSharingProfiles
      countActiveConnections s = (Ok item, s1) ∧
    ∀ s2,
      (∀ k, field (heap s2) item k = field (heap s1) item k) →
      call_method item "getClientIdentifier" [] s2
      = (let* arg := alloc (obj_lit [("dataSource", dataSource);
                                     ("type", ClientIdentifier_Types_CONNECTION);
                                     ("id", field (heap s) connection "identifier")]) in
         ClientIdentifier_toString arg) s2.
Proof.
  intros Hok.
  destruct (run_state _ s _ (fromConnection_spec dataSource connection
    includeSharingProfiles countActiveConnections (heap s) (console s) Hok))
    as (item & s1 & Hrun & Hsub & Hc & ch & kids & Hitem & _).
  exists item, s1. split; [done |]. intros s2 Hsame.
  assert (Hacc : field (heap s2) item "getClientIdentifier" = VFun FDefaultClientIdentifier).
  { rewrite Hsame. apply (item_has_field _ _ _ _ _ Hitem). in_view. }
  assert (Hty : field (heap s2) item "type" = VStr GroupListItem_Type.CONNECTION).
  { rewrite Hsame. apply (item_has_field _ _ _ _ _ Hitem). in_view. }
  assert (Hds : field (heap s2) item "dataSource" = dataSource).
  { rewrite Hsame. apply (item_has_field _ _ _ _ _ Hitem). in_view. }
  assert (Hid : field (heap s2) item "identifier" = field (heap s) connection "identifier").
  { rewrite Hsame. apply (item_has_field _ _ _ _ _ Hitem). in_view. }
  destruct Hitem as (l & fs & -> & _).
  rewrite (call_method_fun _ _ _ _ _ Hacc). cbn [invoke].
  rewrite bind_get by done. rewrite Hty.
  change (is_str (VStr GroupListItem_Type.CONNECTION) GroupListItem_Type.CONNECTION)
    with true. cbv iota.
  rewrite bind_get by done. rewrite bind_get by done. by rewrite Hds, Hid.
Qed.

(** X8.  [getClientIdentifier()] of a group item is the call of
    [ClientIdentifier.toString] on a new object
    [{dataSource, type: ClientIdentifier.Types.CONNECTION_GROUP, id}], with
    the [identifier] the group had when the item was built. *)
Theorem X8_group_client_identifier (d fuel : nat)
    (dataSource connectionGroup includeConnections includeSharingProfiles
     countActiveConnections countActiveConnectionGroups : value) (s : state) :
  (d ≤ fuel)%nat →
  group_ok d (heap s) includeConnections includeSharingProfiles connectionGroup = true →
  ∃ item s1,
    fromConnectionGroup fuel dataSource connectionGroup includeConnections
      includeSharingProfiles countActiveConnections countActiveConnectionGroups s
    = (Ok item, s1) ∧
    ∀ s2,
      (∀ k, field (heap s2) item k = field (heap s1) item k) →
      call_method item "getClientIdentifier" [] s2
      = (let* arg := alloc (obj_lit [("dataSource", dataSource);
                                     ("type", ClientIdentifier_Types_CONNECTION_GROUP);
                                     ("id", field (heap s) connectionGroup "identifier")]) in
         ClientIdentifier_toString arg) s2.
Proof.
  intros Hd Hok.
  destruct (run_state _ s _ (fromConnectionGroup_spec fuel d dataSource connectionGroup
    includeConnections includeSharingProfiles countActiveConnections
    countActiveConnectionGroups (heap s) (console s) Hd Hok))
    as (item & s1 & Hrun & Hsub & Hc & ch & ckids & gkids & Hitem & _).
  exists item, s1. split; [done |]. intros s2 Hsame.
  assert (Hacc : field (heap s2) item "getClientIdentifier" = VFun FDefaultClientIdentifier).
  { rewrite Hsame. apply (item_has_field _ _ _ _ _ Hitem). in_view. }
  assert (Hty : field (heap s2) item "type" = VStr GroupListItem_Type.CONNECTION_GROUP).
  { rewrite Hsame. apply (item_has_field _ _ _ _ _ Hitem). in_view. }
  assert (Hds : field (heap s2) item "dataSource" = dataSource).
  { rewrite Hsame. apply (item_has_field _ _ _ _ _ Hitem). in_view. }
  assert (Hid : field (heap s2) item "identifier"
                = field (heap s) connectionGroup "identifier").
  { rewrite Hsame. apply (item_has_field _ _ _ _ _ Hitem). in_view. }
  destruct Hitem as (l & fs & -> & _).
  rewrite (call_method_fun _ _ _ _ _ Hacc). cbn [invoke].
  rewrite bind_get by done. rewrite Hty.
  change (is_str (VStr GroupListItem_Type.CONNECTION_GROUP) GroupListItem_Type.CONNECTION)
    with false. cbv iota.
  rewrite bind_get by done. rewrite Hty.
  change (is_str (VStr GroupListItem_Type.CONNECTION_GROUP)
            GroupListItem_Type.CONNECTION_GROUP) with true. cbv iota.
  rewrite bind_get by done. rewrite bind_get by done. by rewrite Hds, Hid.
Qed.

(** X9.  A counter that is truthy but is not a function is called all the
    same: [getActiveConnections()] of the item is then a TypeError, and
    the entity's own [activeConnections] is not used as a fallback.  (The
    builder itself does not look at the counter and returns normally.) *)
Theorem X9_counter_not_a_function_raises (d fuel : nat)
    (dataSource connection connectionGroup includeConnections includeSharingProfiles
     countActiveConnections countActiveConnectionGroups : value) (s : state) :
  connection_ok (heap s) includeSharingProfiles connection = true →
  (d ≤ fuel)%nat →
  group_ok d (heap s) includeConnections includeSharingProfiles connectionGroup = true →
  truthy countActiveConnections = true →
  is_fun countActiveConnections = false →
  truthy countActiveConnectionGroups = true →
  is_fun countActiveConnectionGroups = false →
  (∃ item s1,
     fromConnection dataSource connection includeSharingProfiles
       countActiveConnections s = (Ok item, s1) ∧
     call_method item "getActiveConnections" [] s1 = (Throw TypeError, s1)) ∧
  (∃ item s1,
     fromConnectionGroup fuel dataSource connectionGroup includeConnections
       includeSharingProfiles countActiveConnections countActiveConnectionGroups s
     = (Ok item, s1) ∧
     call_method item "getActiveConnections" [] s1 = (Throw TypeError, logged s1)).
Proof.
  intros Hcok Hd Hgok Ht1 Hf1 Ht2 Hf2. split.
  - destruct (run_state _ s _ (fromConnection_spec dataSource connection
      includeSharingProfiles countActiveConnections (heap s) (console s) Hcok))
      as (item & s1 & Hrun & Hsub & Hc & ch & kids & Hitem & _).
    exists item, s1. split; [done |].
    assert (Hacc : field (heap s1) item "getActiveConnections"
                   = VFun (FConnectionActiveConnections countActiveConnections
                             dataSource connection)).
    { apply (item_has_field _ _ _ _ _ Hitem). in_view. }
    destruct Hitem as (l & fs & -> & _).
    rewrite (call_method_fun _ _ _ _ _ Hacc). cbn [invoke]. rewrite Ht1.
    by destruct countActiveConnections.
  - destruct (run_state _ s _ (fromConnectionGroup_spec fuel d dataSource
      connectionGroup includeConnections includeSharingProfiles countActiveConnections
      countActiveConnectionGroups (heap s) (console s) Hd Hgok))
      as (item & s1 & Hrun & Hsub & Hc & ch & ckids & gkids & Hitem & _).
    exists item, s1. split; [done |].
    assert (Hacc : field (heap s1) item "getActiveConnections"
                   = VFun (FGroupActiveConnections countActiveConnectionGroups
                             dataSource connectionGroup)).
    { apply (item_has_field _ _ _ _ _ Hitem). in_view. }
    destruct Hitem as (l & fs & -> & _).
    rewrite (call_method_fun _ _ _ _ _ Hacc). cbn [invoke].
    unfold bind, console_log. rewrite Ht2.
    by destruct countActiveConnectionGroups.
Qed.


End Accessors.

End GroupListItem.

(** ** The properties on the sample heap *)

Import Sample.

(** The connection item counts through the counter it was given. *)
Example sample_counter_is_called :
  let built := fromConnection (VStr "ds") connection VUndefined
                 (VFun (FExtern "count" 1)) sample in
  (match built.1 with
   | Ok item => call_method sample_toString VNull VNull sample_extern
                  item "getActiveConnections" []
   | _ => throw TypeError
   end built.2).1 = Ok (VNum 7).
Proof. vm_compute. reflexivity. Qed.

(** Without a counter the item reads the connection when it is asked: after
    [connection.activeConnections = 9] the accessor returns 9. *)
Example sample_read_is_live :
  let built := fromConnection (VStr "ds") connection VUndefined VUndefined sample in
  (bind (set_prop connection "activeConnections" (VNum 9)) (fun _ =>
     match built.1 with
     | Ok item => call_method sample_toString VNull VNull sample_extern
                    item "getActiveConnections" []
     | _ => throw TypeError
     end) built.2).1 = Ok (VNum 9).
Proof. vm_compute. reflexivity. Qed.

Lemma C1_connections_before_groups_witness :
  (2 ≤ 2)%nat ∧
  group_ok 2 (heap sample) (VBool true) (VBool true) root = true ∧
  ∃ item s' ckids gkids,
    fromConnectionGroup "BALANCING" 2 (VStr "ds") root (VBool true) (VBool true)
      VUndefined VUndefined sample = (Ok item, s') ∧
    is_array (heap s') (field (heap s') item "children") (ckids ++ gkids) ∧
    Forall2 (fun kid p => item_has (heap s') kid
               (connection_view (heap sample) (VStr "ds") p (VBool true) VUndefined))
      ckids
      (if not_false (VBool true)
       then elements_of (heap sample) (field (heap sample) root "childConnections")
       else []) ∧
    Forall2 (fun kid p => item_has (heap s') kid
               (group_view "BALANCING" (heap sample) (VStr "ds") p VUndefined))
      gkids
      (elements_of (heap sample) (field (heap sample) root "childConnectionGroups")).
Proof.
  split; [lia |]. split; [vm_compute; reflexivity |].
  apply (C1_connections_before_groups "BALANCING" 2 2); [lia | vm_compute; reflexivity].
Defined.

Lemma C2_two_sharing_profiles_witness :
  entity (heap sample) connection = true ∧
  field (heap sample) connection "sharingProfiles" = VRef 6%positive ∧
  heap sample !! 6%positive = Some (OArray [profile1; profile2]) ∧
  entity (heap sample) profile1 = true ∧
  entity (heap sample) profile2 = true ∧
  ∃ item s' k1 k2,
    fromConnection (VStr "ds") connection (VBool true) VUndefined sample
    = (Ok item, s') ∧
    is_array (heap s') (field (heap s') item "children") [k1; k2] ∧
    item_has (heap s') k1 (profile_view (heap sample) (VStr "ds") profile1) ∧
    item_has (heap s') k2 (profile_view (heap sample) (VStr "ds") profile2) ∧
    field (heap s') k1 "type" = VStr GroupListItem_Type.SHARING_PROFILE ∧
    field (heap s') k2 "type" = VStr GroupListItem_Type.SHARING_PROFILE.
Proof.
  do 5 (split; [vm_compute; reflexivity |]).
  apply (C2_two_sharing_profiles _ _ _ _ _ 6%positive); vm_compute; reflexivity.
Defined.

Lemma C3_no_sharing_profiles_witness :
  entity (heap sample) connection = true ∧
  ∃ item s',
    fromConnection (VStr "ds") connection (VBool false) VUndefined sample
    = (Ok item, s') ∧
    is_array (heap s') (field (heap s') item "children") [] ∧
    field (heap s') item "expandable" = VBool false.
Proof.
  split; [vm_compute; reflexivity |].
  apply C3_no_sharing_profiles. vm_compute; reflexivity.
Defined.

Lemma C4_group_expandable_witness :
  (1 ≤ 1)%nat ∧
  group_ok 1 (heap sample) VUndefined VUndefined subgroup = true ∧
  ∃ item s',
    fromConnectionGroup "BALANCING" 1 (VStr "ds") subgroup VUndefined VUndefined
      VUndefined VUndefined sample = (Ok item, s') ∧
    field (heap s') item "expandable" = VBool true.
Proof.
  split; [lia |]. split; [vm_compute; reflexivity |].
  apply (C4_group_expandable "BALANCING" 1 1); [lia | vm_compute; reflexivity].
Defined.

Lemma C5_balancing_iff_witness :
  (2 ≤ 3)%nat ∧
  group_ok 2 (heap sample) VUndefined VUndefined root = true ∧
  ∃ item s' b,
    fromConnectionGroup "BALANCING" 3 (VStr "ds") root VUndefined VUndefined
      VUndefined VUndefined sample = (Ok item, s') ∧
    field (heap s') item "balancing" = VBool b ∧
    (b = true ↔ field (heap sample) root "type" = VStr "BALANCING").
Proof.
  split; [lia |]. split; [vm_compute; reflexivity |].
  apply (C5_balancing_iff "BALANCING" 2 3); [lia | vm_compute; reflexivity].
Defined.

Lemma C6_active_connections_witness :
  connection_ok (heap sample) VUndefined connection = true ∧
  (2 ≤ 2)%nat ∧
  group_ok 2 (heap sample) VUndefined VUndefined root = true ∧
  (∃ item s1,
     fromConnection (VStr "ds") connection VUndefined (VFun (FExtern "count" 1)) sample
     = (Ok item, s1) ∧
     ∀ s2,
       field (heap s2) item "getActiveConnections"
       = field (heap s1) item "getActiveConnections" →
       (∀ f, VFun (FExtern "count" 1) = VFun f →
          call_method sample_toString VNull VNull sample_extern
            item "getActiveConnections" [] s2
          = invoke sample_toString VNull VNull sample_extern
              f VUndefined [VStr "ds"; connection] s2) ∧
       (truthy (VFun (FExtern "count" 1)) = false →
          call_method sample_toString VNull VNull sample_extern
            item "getActiveConnections" [] s2
          = (Ok (field (heap s2) connection "activeConnections"), s2))) ∧
  (∃ item s1,
     fromConnectionGroup "BALANCING" 2 (VStr "ds") root VUndefined VUndefined
       (VFun (FExtern "count" 1)) VUndefined sample = (Ok item, s1) ∧
     ∀ s2,
       field (heap s2) item "getActiveConnections"
       = field (heap s1) item "getActiveConnections" →
       (∀ f, VUndefined = VFun f →
          call_method sample_toString VNull VNull sample_extern
            item "getActiveConnections" [] s2
          = invoke sample_toString VNull VNull sample_extern
              f VUndefined [VStr "ds"; root] (logged s2)) ∧
       (truthy VUndefined = false →
          call_method sample_toString VNull VNull sample_extern
            item "getActiveConnections" [] s2
          = (Ok (field (heap s2) root "activeConnections"), logged s2))).
Proof.
  split; [vm_compute; reflexivity |]. split; [lia |].
  split; [vm_compute; reflexivity |].
  apply (C6_active_connections "BALANCING" sample_toString VNull VNull sample_extern 2 2);
    [vm_compute; reflexivity | lia | vm_compute; reflexivity].
Defined.

(** C7 as the specification states it fails: the constructor takes the
    [getClientIdentifier] of its template when there is one.  The item built
    from [{type: 'custom', getClientIdentifier: customIdentifier}] is of
    neither standard type, and its [getClientIdentifier()] returns what
    [customIdentifier] returns, which is not [null]. *)
Lemma C7_counterexample :
  let built := GroupListItem_new custom_template sample in
  let item := VRef 11%positive in
  built.1 = Ok item ∧
  field (heap built.2) item "type" = VStr "custom" ∧
  is_str (field (heap built.2) item "type") GroupListItem_Type.CONNECTION = false ∧
  is_str (field (heap built.2) item "type") GroupListItem_Type.CONNECTION_GROUP = false ∧
  (call_method sample_toString VNull VNull sample_extern
     item "getClientIdentifier" [] built.2).1 = Ok (VStr "custom-id") ∧
  (call_method sample_toString VNull VNull sample_extern
     item "getClientIdentifier" [] built.2).1 ≠ Ok VNull.
Proof.
  cbv zeta. repeat apply conj; try (vm_compute; reflexivity).
  vm_compute. discriminate.
Qed.

Lemma C7_default_client_identifier_witness :
  live (heap sample) custom_template = true ∧
  entity (heap sample) profile1 = true ∧
  (∃ item s1,
     GroupListItem_new custom_template sample = (Ok item, s1) ∧
     ∀ s2,
       field (heap s2) item "getClientIdentifier"
       = field (heap s1) item "getClientIdentifier" →
       (truthy (template_field (heap sample) custom_template "getClientIdentifier")
        = false →
        is_str (field (heap s2) item "type") GroupListItem_Type.CONNECTION = false →
        is_str (field (heap s2) item "type") GroupListItem_Type.CONNECTION_GROUP = false →
        call_method sample_toString VNull VNull sample_extern
          item "getClientIdentifier" [] s2 = (Ok VNull, s2)) ∧
       (∀ f, template_field (heap sample) custom_template "getClientIdentifier" = VFun f →
          call_method sample_toString VNull VNull sample_extern
            item "getClientIdentifier" [] s2
          = invoke sample_toString VNull VNull sample_extern f item [] s2) ∧
       (truthy (template_field (heap sample) custom_template "getClientIdentifier")
        = true →
        is_fun (template_field (heap sample) custom_template "getClientIdentifier")
        = false →
        call_method sample_toString VNull VNull sample_extern
          item "getClientIdentifier" [] s2 = (Throw TypeError, s2))) ∧
  (∃ item s1,
     fromSharingProfile (VStr "ds") profile1 sample = (Ok item, s1) ∧
     field (heap s1) item "type" = VStr GroupListItem_Type.SHARING_PROFILE ∧
     call_method sample_toString VNull VNull sample_extern
       item "getClientIdentifier" [] s1 = (Ok VNull, s1)).
Proof.
  do 2 (split; [vm_compute; reflexivity |]).
  apply (C7_default_client_identifier sample_toString VNull VNull sample_extern);
    vm_compute; reflexivity.
Defined.

Lemma C8_source_unchanged_witness :
  entity (heap sample) profile1 = true ∧
  connection_ok (heap sample) VUndefined connection = true ∧
  group_ok 2 (heap sample) VUndefined VUndefined root = true ∧
  heap sample !! 4%positive
  = Some (obj_lit [("identifier", VStr "1"); ("name", VStr "desktop");
                   ("protocol", VStr "vnc"); ("activeConnections", VNum 2);
                   ("sharingProfiles", VRef 6%positive)]) ∧
  heap (fromConnection (VStr "ds") connection VUndefined VUndefined sample).2
    !! 4%positive
  = Some (obj_lit [("identifier", VStr "1"); ("name", VStr "desktop");
                   ("protocol", VStr "vnc"); ("activeConnections", VNum 2);
                   ("sharingProfiles", VRef 6%positive)]) ∧
  heap (fromConnectionGroup "BALANCING" 2 (VStr "ds") root VUndefined VUndefined
          VUndefined VUndefined sample).2 !! 4%positive
  = Some (obj_lit [("identifier", VStr "1"); ("name", VStr "desktop");
                   ("protocol", VStr "vnc"); ("activeConnections", VNum 2);
                   ("sharingProfiles", VRef 6%positive)]) ∧
  heap (fromSharingProfile (VStr "ds") profile1 sample).2 !! 4%positive
  = Some (obj_lit [("identifier", VStr "1"); ("name", VStr "desktop");
                   ("protocol", VStr "vnc"); ("activeConnections", VNum 2);
                   ("sharingProfiles", VRef 6%positive)]).
Proof.
  do 4 (split; [vm_compute; reflexivity |]).
  apply (C8_source_unchanged "BALANCING" 2); vm_compute; reflexivity.
Defined.

Lemma C9_children_never_null_witness :
  live (heap sample) plain_template = true ∧
  entity (heap sample) profile1 = true ∧
  connection_ok (heap sample) VUndefined connection = true ∧
  (2 ≤ 2)%nat ∧
  group_ok 2 (heap sample) VUndefined VUndefined root = true ∧
  (∃ item s',
     GroupListItem_new plain_template sample = (Ok item, s') ∧
     nullish (field (heap s') item "children") = false ∧
     (truthy (template_field (heap sample) plain_template "children") = false →
      is_array (heap s') (field (heap s') item "children") [])) ∧
  (∃ item s',
     fromSharingProfile (VStr "ds") profile1 sample = (Ok item, s') ∧
     is_array (heap s') (field (heap s') item "children") []) ∧
  (∃ item s' kids,
     fromConnection (VStr "ds") connection VUndefined VUndefined sample = (Ok item, s') ∧
     is_array (heap s') (field (heap s') item "children") kids) ∧
  (∃ item s' kids,
     fromConnectionGroup "BALANCING" 2 (VStr "ds") root VUndefined VUndefined
       VUndefined VUndefined sample = (Ok item, s') ∧
     is_array (heap s') (field (heap s') item "children") kids).
Proof.
  do 3 (split; [vm_compute; reflexivity |]). split; [lia |].
  split; [vm_compute; reflexivity |].
  apply (C9_children_never_null "BALANCING" 2 2);
    first [lia | vm_compute; reflexivity].
Defined.

Lemma C10_only_false_excludes_witness :
  not_false (VNum 0) = true ∧
  fromConnection (VStr "ds") connection (VNum 0) VUndefined sample
  = fromConnection (VStr "ds") connection (VBool true) VUndefined sample ∧
  fromConnectionGroup "BALANCING" 2 (VStr "ds") root (VNum 0) VUndefined
    VUndefined VUndefined sample
  = fromConnectionGroup "BALANCING" 2 (VStr "ds") root (VBool true) VUndefined
      VUndefined VUndefined sample ∧
  (∃ item s' kids,
     fromConnection (VStr "ds") connection (VNum 0) VUndefined sample = (Ok item, s') ∧
     field (heap s') item "expandable" = VBool true ∧
     is_array (heap s') (field (heap s') item "children") kids ∧
     Forall2 (fun kid p => item_has (heap s') kid (profile_view (heap sample) (VStr "ds") p))
       kids (elements_of (heap sample) (field (heap sample) connection "sharingProfiles"))) ∧
  (∃ item s' ckids gkids,
     fromConnectionGroup "BALANCING" 2 (VStr "ds") root (VNum 0) VUndefined
       VUndefined VUndefined sample = (Ok item, s') ∧
     is_array (heap s') (field (heap s') item "children") (ckids ++ gkids) ∧
     Forall2 (fun kid p => item_has (heap s') kid
                (connection_view (heap sample) (VStr "ds") p VUndefined VUndefined))
       ckids (elements_of (heap sample) (field (heap sample) root "childConnections"))).
Proof.
  destruct (C10_only_false_excludes "BALANCING" (VNum 0) eq_refl)
    as (Hconn & Hgroup & Hkids & Hckids).
  split; [reflexivity |]. split; [apply Hconn |]. split; [apply Hgroup |].
  split.
  - apply Hkids. vm_compute; reflexivity.
  - apply (Hckids 2 2); [lia | vm_compute; reflexivity].
Defined.

(** ** The further properties on the sample heaps *)

Lemma X1_constructor_contract_witness :
  live (heap sample) custom_template = true ∧
  ∃ l s',
    GroupListItem_new custom_template sample = (Ok (VRef l), s') ∧
    heap sample !! l = None ∧
    Forall (fun k => field (heap s') (VRef l) k
                     = template_field (heap sample) custom_template k)
      copied_properties ∧
    field (heap s') (VRef l) "getActiveConnections"
    = dflt (template_field (heap sample) custom_template "getActiveConnections")
        (VFun FDefaultActiveConnections) ∧
    field (heap s') (VRef l) "getClientIdentifier"
    = dflt (template_field (heap sample) custom_template "getClientIdentifier")
        (VFun FDefaultClientIdentifier) ∧
    field (heap s') (VRef l) "weight"
    = dflt (template_field (heap sample) custom_template "weight") (VNum 0) ∧
    (truthy (template_field (heap sample) custom_template "children") = true →
     field (heap s') (VRef l) "children"
     = template_field (heap sample) custom_template "children").
Proof.
  split; [vm_compute; reflexivity |].
  apply X1_constructor_contract. vm_compute; reflexivity.
Defined.

Lemma X2_building_is_quiet_witness :
  connection_ok (heap sample) VUndefined connection = true ∧
  group_ok 2 (heap sample) VUndefined VUndefined root = true ∧
  console (GroupListItem_new plain_template sample).2 = console sample ∧
  console (fromSharingProfile (VStr "ds") profile1 sample).2 = console sample ∧
  console (fromConnection (VStr "ds") connection VUndefined VUndefined sample).2
  = console sample ∧
  console (fromConnectionGroup "BALANCING" 2 (VStr "ds") root VUndefined VUndefined
             VUndefined VUndefined sample).2 = console sample.
Proof.
  do 2 (split; [vm_compute; reflexivity |]).
  apply (X2_building_is_quiet "BALANCING" 2); vm_compute; reflexivity.
Defined.

Lemma X3_nullish_entity_raises_witness :
  nullish VNull = true ∧
  (fromSharingProfile (VStr "ds") VNull sample).1 = Throw TypeError ∧
  (fromConnection (VStr "ds") VNull (VBool false) VUndefined sample).1
  = Throw TypeError ∧
  (fromConnectionGroup "BALANCING" 1 (VStr "ds") VNull VUndefined (VBool false)
     VUndefined VUndefined sample).1 = Throw TypeError.
Proof.
  split; [reflexivity |].
  apply (X3_nullish_entity_raises "BALANCING" 0). reflexivity.
Defined.

Lemma X4_sharingProfiles_not_array_raises_witness :
  entity (heap Broken.broken) Broken.connection = true ∧
  truthy (field (heap Broken.broken) Broken.connection "sharingProfiles") = true ∧
  live (heap Broken.broken)
    (field (heap Broken.broken) Broken.connection "sharingProfiles") = true ∧
  array_of (heap Broken.broken) (fun _ => true)
    (field (heap Broken.broken) Broken.connection "sharingProfiles") = false ∧
  is_fun (field (heap Broken.broken)
            (field (heap Broken.broken) Broken.connection "sharingProfiles") "forEach")
  = false ∧
  not_false VUndefined = true ∧
  (fromConnection (VStr "ds") Broken.connection VUndefined VUndefined
     Broken.broken).1 = Throw TypeError.
Proof.
  do 6 (split; [vm_compute; reflexivity |]).
  apply X4_sharingProfiles_not_array_raises; vm_compute; reflexivity.
Defined.

Lemma X5_childConnections_not_array_raises_witness :
  entity (heap Broken.broken) Broken.group = true ∧
  truthy (field (heap Broken.broken) Broken.group "childConnections") = true ∧
  live (heap Broken.broken)
    (field (heap Broken.broken) Broken.group "childConnections") = true ∧
  array_of (heap Broken.broken) (fun _ => true)
    (field (heap Broken.broken) Broken.group "childConnections") = false ∧
  is_fun (field (heap Broken.broken)
            (field (heap Broken.broken) Broken.group "childConnections") "forEach")
  = false ∧
  not_false VUndefined = true ∧
  (fromConnectionGroup "BALANCING" 3 (VStr "ds") Broken.group VUndefined VUndefined
     VUndefined VUndefined Broken.broken).1 = Throw TypeError.
Proof.
  do 6 (split; [vm_compute; reflexivity |]).
  apply (X5_childConnections_not_array_raises "BALANCING" 2); vm_compute; reflexivity.
Defined.

Lemma X6_sharing_profiles_report_null_witness :
  connection_ok (heap sample) VUndefined connection = true ∧
  entity (heap sample) profile1 = true ∧
  (∃ item s' kids,
     fromConnection (VStr "ds") connection VUndefined (VFun (FExtern "count" 1)) sample
     = (Ok item, s') ∧
     is_array (heap s') (field (heap s') item "children") kids ∧
     length kids
     = length (shown (heap sample) (not_false VUndefined)
                 (field (heap sample) connection "sharingProfiles")) ∧
     Forall (fun kid => call_method sample_toString VNull VNull sample_extern
                          kid "getActiveConnections" [] s' = (Ok VNull, s'))
       kids) ∧
  (∃ item s',
     fromSharingProfile (VStr "ds") profile1 sample = (Ok item, s') ∧
     call_method sample_toString VNull VNull sample_extern
       item "getActiveConnections" [] s' = (Ok VNull, s')).
Proof.
  do 2 (split; [vm_compute; reflexivity |]).
  apply (X6_sharing_profiles_report_null sample_toString VNull VNull sample_extern);
    vm_compute; reflexivity.
Defined.

Lemma X7_connection_client_identifier_witness :
  connection_ok (heap sample) VUndefined connection = true ∧
  ∃ item s1,
    fromConnection (VStr "ds") connection VUndefined VUndefined sample = (Ok item, s1) ∧
    ∀ s2,
      (∀ k, field (heap s2) item k = field (heap s1) item k) →
      call_method sample_toString (VStr "c") (VStr "g") sample_extern
        item "getClientIdentifier" [] s2
      = (let* arg := alloc (obj_lit [("dataSource", VStr "ds");
                                     ("type", VStr "c");
                                     ("id", field (heap sample) connection "identifier")]) in
         sample_toString arg) s2.
Proof.
  split; [vm_compute; reflexivity |].
  apply (X7_connection_client_identifier sample_toString (VStr "c") (VStr "g")
           sample_extern).
  vm_compute; reflexivity.
Defined.

Lemma X8_group_client_identifier_witness :
  (2 ≤ 2)%nat ∧
  group_ok 2 (heap sample) VUndefined VUndefined root = true ∧
  ∃ item s1,
    fromConnectionGroup "BALANCING" 2 (VStr "ds") root VUndefined VUndefined
      VUndefined VUndefined sample = (Ok item, s1) ∧
    ∀ s2,
      (∀ k, field (heap s2) item k = field (heap s1) item k) →
      call_method sample_toString (VStr "c") (VStr "g") sample_extern
        item "getClientIdentifier" [] s2
      = (let* arg := alloc (obj_lit [("dataSource", VStr "ds");
                                     ("type", VStr "g");
                                     ("id", field (heap sample) root "identifier")]) in
         sample_toString arg) s2.
Proof.
  split; [lia |]. split; [vm_compute; reflexivity |].
  apply (X8_group_client_identifier "BALANCING" sample_toString (VStr "c") (VStr "g")
           sample_extern 2 2); [lia | vm_compute; reflexivity].
Defined.

Lemma X9_counter_not_a_function_raises_witness :
  connection_ok (heap sample) VUndefined connection = true ∧
  (2 ≤ 2)%nat ∧
  group_ok 2 (heap sample) VUndefined VUndefined root = true ∧
  truthy (VNum 5) = true ∧
  is_fun (VNum 5) = false ∧
  truthy (VStr "count") = true ∧
  is_fun (VStr "count") = false ∧
  (∃ item s1,
     fromConnection (VStr "ds") connection VUndefined (VNum 5) sample = (Ok item, s1) ∧
     call_method sample_toString VNull VNull sample_extern
       item "getActiveConnections" [] s1 = (Throw TypeError, s1)) ∧
  (∃ item s1,
     fromConnectionGroup "BALANCING" 2 (VStr "ds") root VUndefined VUndefined
       (VNum 5) (VStr "count") sample = (Ok item, s1) ∧
     call_method sample_toString VNull VNull sample_extern
       item "getActiveConnections" [] s1 = (Throw TypeError, logged s1)).
Proof.
  split; [vm_compute; reflexivity |]. split; [lia |].
  do 5 (split; [vm_compute; reflexivity |]).
  apply (X9_counter_not_a_function_raises "BALANCING" sample_toString VNull VNull
           sample_extern 2 2);
    first [lia | vm_compute; reflexivity].
Defined.


Lemma X11_tree_mirrors_source_witness :
  (2 ≤ 2)%nat ∧
  group_ok 2 (heap sample) VUndefined VUndefined root = true ∧
  ∃ item s',
    fromConnectionGroup "BALANCING" 2 (VStr "ds") root VUndefined VUndefined
      VUndefined VUndefined sample = (Ok item, s') ∧
    group_tree "BALANCING" 2 (heap sample) (heap s') (VStr "ds") VUndefined VUndefined
      VUndefined VUndefined item root.
Proof.
  split; [lia |]. split; [vm_compute; reflexivity |].
  apply (X11_tree_mirrors_source "BALANCING" 2 2); [lia | vm_compute; reflexivity].
Defined.

Lemma X12_tree_is_new_witness :
  entity (heap sample) profile1 = true ∧
  connection_ok (heap sample) VUndefined connection = true ∧
  (2 ≤ 2)%nat ∧
  group_ok 2 (heap sample) VUndefined VUndefined root = true ∧
  (∃ item s',
     fromSharingProfile (VStr "ds") profile1 sample = (Ok item, s') ∧
     profile_tree (heap sample) (heap s' ∖ heap sample) (VStr "ds") item profile1) ∧
  (∃ item s',
     fromConnection (VStr "ds") connection VUndefined VUndefined sample = (Ok item, s') ∧
     connection_tree (heap sample) (heap s' ∖ heap sample) (VStr "ds") VUndefined
       VUndefined item connection) ∧
  (∃ item s',
     fromConnectionGroup "BALANCING" 2 (VStr "ds") root VUndefined VUndefined
       VUndefined VUndefined sample = (Ok item, s') ∧
     group_tree "BALANCING" 2 (heap sample) (heap s' ∖ heap sample) (VStr "ds")
       VUndefined VUndefined VUndefined VUndefined item root).
Proof.
  do 2 (split; [vm_compute; reflexivity |]). split; [lia |].
  split; [vm_compute; reflexivity |].
  apply (X12_tree_is_new "BALANCING" 2 2); first [lia | vm_compute; reflexivity].
Defined.
